(** * Expense tracker (MERN): aggregation, balance and store handlers

    A shallow embedding of [backend/server.js] (the Express handlers and the
    MongoDB aggregation pipelines they run) and of the balance computation of
    the React [Dashboard] component.

    Conventions of the model.
    - A JavaScript [Number] that holds a year, a month or a day is an
      integer of [Z].  The handlers are modelled over amounts that are whole
      numbers, also of [Z]: what they check, store, delete and hand back
      does not depend on the arithmetic of the amounts.  The sums of amounts
      do: the [$sum] of the two pipelines and the [reduce] of the balance
      card are modelled again over documents whose amount is of any type,
      and at the binary64 doubles JavaScript and the store hold
      ([PrimFloat], the kernel's IEEE-754 doubles).
    - A [Date] is its time value: milliseconds since 1970-01-01T00:00:00Z.
      MongoDB's [$year], [$month] and [$dayOfMonth] read the UTC calendar
      fields of that instant; the browser's [getFullYear] and [getMonth] read
      the fields of the local time.
    - An [ObjectId] is its 96-bit value; the 24-digit hexadecimal text is
      parsed where the code receives an id as a string.
    - Every handler runs in a small state-and-exception monad over the two
      collections, and records each collection access in a log.  The
      exceptions are those Mongoose raises by itself (a failed cast, a
      failed validation, a duplicate key); a failure of the database
      server or of the network is outside the model. *)

From stdpp Require Import gmap strings list sorting pretty.
From Stdlib Require Import ZArith Lia Ascii Floats.

Open Scope Z_scope.

(** ** JavaScript built-ins used by the handlers *)

Module JS.

Definition is_digit (c : ascii) : bool :=
  let n := nat_of_ascii c in (48 <=? n)%nat && (n <=? 57)%nat.

Definition digit_value (c : ascii) : Z := Z.of_nat (nat_of_ascii c) - 48.

(** [/^\d{4}-\d{2}$/.test(s)]: without the [m] flag [$] matches at the end
    of the input only, and [\d] is [[0-9]]. *)
Definition month_pattern_test (s : string) : bool :=
  match s with
  | String y1 (String y2 (String y3 (String y4 (String h
      (String m1 (String m2 EmptyString)))))) =>
      is_digit y1 && is_digit y2 && is_digit y3 && is_digit y4
      && bool_decide (h = "-"%char)
      && is_digit m1 && is_digit m2
  | _ => false
  end.

(** [s.split(sep)] for a one-character separator: the pieces between the
    separators, empty pieces included. *)
Fixpoint split_from (sep : ascii) (cur : string) (s : string) : list string :=
  match s with
  | EmptyString => [String.rev cur]
  | String c s' =>
      if bool_decide (c = sep) then String.rev cur :: split_from sep EmptyString s'
      else split_from sep (String c cur) s'
  end.

Definition split (sep : ascii) (s : string) : list string :=
  split_from sep EmptyString s.

(** The leading run of decimal digits, folded into a number; [None] when
    there is none. *)
Fixpoint digits_prefix (acc : option Z) (s : string) : option Z :=
  match s with
  | String c s' =>
      if is_digit c
      then digits_prefix (Some (10 * default 0 acc + digit_value c)) s'
      else acc
  | EmptyString => acc
  end.

(** [parseInt(x)] in radix ten: an optional sign, then the longest prefix
    of decimal digits; [None] is [NaN], also for [undefined].  Leading
    white space and the [0x] prefix are not modelled: the handler calls
    [parseInt] on runs of digits only. *)
Definition parseInt (x : option string) : option Z :=
  match x with
  | None => None
  | Some (String "-" s) => Z.opp <$> digits_prefix None s
  | Some (String "+" s) => digits_prefix None s
  | Some s => digits_prefix None s
  end.

(** [String(n)] and template interpolation of an integer. *)
Definition Number_toString (n : Z) : string := pretty n.

Fixpoint repeat_char (n : nat) (c : ascii) : string :=
  match n with
  | O => EmptyString
  | S n' => String c (repeat_char n' c)
  end.

(** [s.padStart(n, c)] for a one-character filler. *)
Definition padStart (n : nat) (c : ascii) (s : string) : string :=
  repeat_char (n - String.length s) c +:+ s.

(** [s.startsWith(p)]. *)
Definition startsWith (p s : string) : bool := String.prefix p s.

End JS.

(** ** Calendar fields of a time value *)

Module Calendar.

Definition msPerDay : Z := 86400000.

(** Days since the epoch of the instant [t]. *)
Definition day_number (t : Z) : Z := t / msPerDay.

(** Proleptic Gregorian (year, month, day) of a day number, by 400-year
    eras starting on 1 March. *)
Definition civil_from_days (z0 : Z) : Z * Z * Z :=
  let z := z0 + 719468 in
  let era := z / 146097 in
  let doe := z mod 146097 in
  let yoe := (doe - doe / 1460 + doe / 36524 - doe / 146096) / 365 in
  let y := yoe + era * 400 in
  let doy := doe - (365 * yoe + yoe / 4 - yoe / 100) in
  let mp := (5 * doy + 2) / 153 in
  let d := doy - (153 * mp + 2) / 5 + 1 in
  let m := if mp <? 10 then mp + 3 else mp - 9 in
  (if m <=? 2 then y + 1 else y, m, d).

Definition year_of (t : Z) : Z := (civil_from_days (day_number t)).1.1.
Definition month_of (t : Z) : Z := (civil_from_days (day_number t)).1.2.
Definition day_of (t : Z) : Z := (civil_from_days (day_number t)).2.

(** Day number of a calendar date, the inverse direction; used to write
    dates in examples. *)
Definition days_from_civil (y m d : Z) : Z :=
  let y' := if m <=? 2 then y - 1 else y in
  let era := y' / 400 in
  let yoe := y' mod 400 in
  let doy := (153 * (if m >? 2 then m - 3 else m + 9) + 2) / 5 + d - 1 in
  let doe := yoe * 365 + yoe / 4 - yoe / 100 + doy in
  era * 146097 + doe - 719468.

(** [Date.UTC(y, m - 1, d)]: midnight UTC of a calendar date. *)
Definition utc (y m d : Z) : Z := days_from_civil y m d * msPerDay.

End Calendar.

Example calendar_2024_01_05 :
  Calendar.utc 2024 1 5 = 1704412800000 /\
  Calendar.civil_from_days (Calendar.day_number 1704412800000) = (2024, 1, 5).
Proof. split; reflexivity. Qed.

Example calendar_spot_checks :
  Calendar.civil_from_days 0 = (1970, 1, 1)
  /\ Calendar.civil_from_days (-1) = (1969, 12, 31)
  /\ Calendar.civil_from_days 11016 = (2000, 2, 29)
  /\ Calendar.civil_from_days 11017 = (2000, 3, 1)
  /\ Calendar.civil_from_days (Calendar.days_from_civil 1900 2 28 + 1) = (1900, 3, 1)
  /\ Calendar.civil_from_days (Calendar.days_from_civil 99 6 1) = (99, 6, 1).
Proof. repeat split. Qed.

(** Over the 10000 days from 1 January 2000 the two directions agree day
    by day. *)
Example calendar_round_trip :
  forallb (fun z => let '(y, m, d) := Calendar.civil_from_days z in
                    Calendar.days_from_civil y m d =? z)
    (seqZ (Calendar.days_from_civil 2000 1 1) 10000) = true.
Proof. vm_compute. reflexivity. Qed.

(** ** Documents and collections *)

(** An [ObjectId] is its 96-bit value. *)
Definition ObjectId : Type := N.

(** [enum: ["Food", "Travel", "Bills", "Other"]] of [ExpenseSchema]. *)
Inductive Category := Food | Travel | Bills | Other.

(** A document of [UserSchema]; its [_id] is the key it is stored under. *)
Record User := {
  name : string;
  email : string;
  password : string;
  monthlyIncome : Z;
}.

(** A document of [ExpenseSchema]; its [_id] is the key it is stored
    under, [user] is the owner's [_id] and [date] a time value. *)
Record Expense := {
  user : ObjectId;
  title : string;
  amount : Z;
  category : Category;
  date : Z;
}.

#[global] Instance Category_eq_dec : EqDecision Category.
Proof. solve_decision. Defined.
#[global] Instance User_eq_dec : EqDecision User.
Proof. solve_decision. Defined.
#[global] Instance Expense_eq_dec : EqDecision Expense.
Proof. solve_decision. Defined.

(** The two collections, each keyed by [_id] (MongoDB keeps [_id] unique). *)
Record DB := {
  users : gmap N User;
  expenses : gmap N Expense;
}.

(** The documents of the expense collection, in the order a collection
    scan yields them. *)
Definition documents (d : DB) : list Expense := (map_to_list (expenses d)).*2.

(** ** MongoDB: ObjectId casting and the aggregation stages *)

Module Mongo.

Definition hex_value (c : ascii) : option N :=
  let n := nat_of_ascii c in
  if (48 <=? n)%nat && (n <=? 57)%nat then Some (N.of_nat (n - 48))
  else if (97 <=? n)%nat && (n <=? 102)%nat then Some (N.of_nat (n - 87))
  else if (65 <=? n)%nat && (n <=? 70)%nat then Some (N.of_nat (n - 55))
  else None.

Fixpoint hex_digits (acc : N) (s : string) : option N :=
  match s with
  | EmptyString => Some acc
  | String c s' =>
      match hex_value c with
      | Some v => hex_digits (16 * acc + v)%N s'
      | None => None
      end
  end.

(** Mongoose casts a string to an [ObjectId] when it is 24 hexadecimal
    digits, in either case; any other string is a [CastError] ([None]).
    The 12-byte raw form some driver versions also accept is not
    modelled. *)
Definition castObjectId (s : string) : option ObjectId :=
  if (String.length s =? 24)%nat then hex_digits 0%N s else None.

(** An output document of a [$group] stage with one [$sum] accumulator. *)
Record Group (K : Type) := mkGroup { _id : K; total : Z }.
Arguments mkGroup {K} _ _.
Arguments _id {K} _.
Arguments total {K} _.

Section stages.
Context {K : Type} `{EqDecision K}.

(** One input document reaches the accumulator of its group; a key seen
    for the first time opens a group whose [$sum] starts at 0. *)
Fixpoint accumulate (k : K) (a : Z) (gs : list (Group K)) : list (Group K) :=
  match gs with
  | [] => [mkGroup k (0 + a)]
  | g :: gs' =>
      if decide (_id g = k) then mkGroup k (total g + a) :: gs'
      else g :: accumulate k a gs'
  end.

(** [{ $group: { _id: key, total: { $sum: '$amount' } } }]. *)
Definition group_stage (key : Expense -> K) (docs : list Expense) : list (Group K) :=
  foldl (fun gs e => accumulate (key e) (amount e) gs) [] docs.

End stages.

(** The group key of the monthly pipeline:
    [{ year: { $year: '$date' }, month: { $month: '$date' } }]. *)
Record YearMonth := mkYearMonth { year : Z; month : Z }.

#[global] Instance YearMonth_eq_dec : EqDecision YearMonth.
Proof. solve_decision. Defined.

Definition year_month (e : Expense) : YearMonth :=
  mkYearMonth (Calendar.year_of (date e)) (Calendar.month_of (date e)).

(** The order of [{ $sort: { '_id.year': 1, '_id.month': 1 } }]. *)
Definition ym_le (a b : Group YearMonth) : Prop :=
  year (_id a) < year (_id b) \/
  (year (_id a) = year (_id b) /\ month (_id a) <= month (_id b)).

#[global] Instance ym_le_dec : RelDecision ym_le.
Proof. intros a b. unfold ym_le. apply _. Defined.

(** The order of [{ $sort: { '_id': 1 } }] on day numbers. *)
Definition day_le (a b : Group Z) : Prop := _id a <= _id b.

#[global] Instance day_le_dec : RelDecision day_le.
Proof. intros a b. unfold day_le. apply _. Defined.

(** The pipeline of the monthly summary: [$match] on the owner, [$group]
    by year and month, [$sort]. *)
Definition monthly_pipeline (owner : ObjectId) (docs : list Expense)
  : list (Group YearMonth) :=
  merge_sort ym_le
    (group_stage year_month (filter (fun e => user e = owner) docs)).

(** The pipeline of the daily summary: [$match] on the owner and, by
    [$expr], on the year and the month ([None] is [NaN], equal to no
    field), [$group] by day of the month, [$sort]. *)
Definition daily_pipeline (owner : ObjectId) (yr monthNum : option Z)
    (docs : list Expense) : list (Group Z) :=
  merge_sort day_le
    (group_stage (fun e => Calendar.day_of (date e))
       (filter (fun e => user e = owner
                         /\ Some (Calendar.year_of (date e)) = yr
                         /\ Some (Calendar.month_of (date e)) = monthNum) docs)).

End Mongo.

(** ** Requests and responses *)

(** A value of a parsed JSON body.  An array and an object are one case,
    kept with the string JavaScript converts the value to ([toString]: the
    elements joined by commas for an array, ["[object Object]"] for an
    object). *)
Inductive JValue :=
  | JUndefined
  | JNull
  | JBool (b : bool)
  | JNumber (n : Z)
  | JString (s : string)
  | JObject (text : string).

Module Req.

(** The fields the handlers destructure from [req.body]. *)
Record body := mkBody {
  title : JValue;
  amount : JValue;
  category : JValue;
  date : JValue;
  income : JValue;
}.

(** What a handler reads of the request: the [Authorization] header,
    [req.params.id], [req.query.month] (a string or [undefined]) and the
    body. *)
Record t := mk {
  authorization : option string;
  params_id : string;
  query_month : option string;
  req_body : body;
}.

End Req.

(** Items of the two summaries, as sent to the client. *)
Module MonthlyBucket.
Record t := mk { label : string; total : Z }.
End MonthlyBucket.

Module DailyBucket.
Record t := mk { day : Z; total : Z }.
End DailyBucket.

Inductive Payload :=
  | Message (message : string)
  | ExpenseDoc (id : ObjectId) (e : Expense)
  | MonthlyData (formattedData : list MonthlyBucket.t)
  | DailyData (month : string) (days : list DailyBucket.t)
  | IncomeData (monthlyIncome : Z).

(** [res.status(s).json(p)]; [res.json(p)] is status 200.  Of the body of
    a 500 answer the [message] is kept and the [error] text left out. *)
Record Response := { status : Z; json : Payload }.

(** What a request takes from outside the two collections: the verifier
    of tokens under the server's secret ([None] when [jwt.verify] throws,
    else the [id] of the payload), the clock, the [ObjectId] a new document
    gets, and the platform's readers of date and number strings
    ([Date.parse] and [Number], [None] for [NaN]) and its writer of
    numbers ([String], with an exponent from 10^21 on), which stay
    abstract. *)
Record Env := {
  jwt_verify : option string -> option string;
  Date_now : Z;
  new_ObjectId : ObjectId;
  Date_parse : string -> option Z;
  Number_parse : string -> option Z;
  Number_text : Z -> string;
}.

(** ** The handler monad: collections, access log, exceptions *)

Inductive StoreOp :=
  | UserFindById (id : ObjectId)
  | UserSave (id : ObjectId)
  | ExpenseFindById (id : ObjectId)
  | ExpenseFindByIdAndDelete (id : ObjectId)
  | ExpenseSave (id : ObjectId)
  | ExpenseAggregate.

Definition on_expenses (op : StoreOp) : bool :=
  match op with
  | UserFindById _ | UserSave _ => false
  | _ => true
  end.

Record World := { db : DB; log : list StoreOp }.

Inductive Outcome (A : Type) :=
  | Returned (a : A)
  | Thrown (err : string).
Arguments Returned {A} _.
Arguments Thrown {A} _.

Definition M (A : Type) : Type := World -> Outcome A * World.

#[global] Instance M_ret : MRet M := fun A a w => (Returned a, w).

#[global] Instance M_bind : MBind M := fun A B k m w =>
  match m w with
  | (Returned a, w') => k a w'
  | (Thrown err, w') => (Thrown err, w')
  end.

Definition throw {A} (err : string) : M A := fun w => (Thrown err, w).

(** [try { m } catch (err) { handler }]. *)
Definition try_catch {A} (m : M A) (handler : string -> M A) : M A := fun w =>
  match m w with
  | (Returned a, w') => (Returned a, w')
  | (Thrown err, w') => handler err w'
  end.

Definition access (op : StoreOp) : M unit := fun w =>
  (Returned (), {| db := db w; log := log w ++ [op] |}).

Definition read_db : M DB := fun w => (Returned (db w), w).

Definition write_db (d : DB) : M unit := fun w =>
  (Returned (), {| db := d; log := log w |}).

Definition respond (s : Z) (p : Payload) : M Response :=
  mret {| status := s; json := p |}.

(** ** The Mongoose models *)

(** [User.findById(id)] for an [_id] already cast. *)
Definition User_findById (id : ObjectId) : M (option User) :=
  access (UserFindById id);; d ← read_db; mret (users d !! id).

(** [User.findById(s)] for a string: the cast comes first and throws. *)
Definition User_findById_str (s : string) : M (option (ObjectId * User)) :=
  match Mongo.castObjectId s with
  | None => throw "CastError"
  | Some id => u ← User_findById id; mret (pair id <$> u)
  end.

(** [user.save()] of a document read from the collection. *)
Definition User_save (id : ObjectId) (u : User) : M unit :=
  access (UserSave id);; d ← read_db;
  match users d !! id with
  | None => throw "DocumentNotFoundError"
  | Some _ => write_db {| users := <[id := u]> (users d); expenses := expenses d |}
  end.

(** [Expense.findById(s)]. *)
Definition Expense_findById (s : string) : M (option Expense) :=
  match Mongo.castObjectId s with
  | None => throw "CastError"
  | Some id => access (ExpenseFindById id);; d ← read_db; mret (expenses d !! id)
  end.

(** [Expense.findByIdAndDelete(s)]. *)
Definition Expense_findByIdAndDelete (s : string) : M (option Expense) :=
  match Mongo.castObjectId s with
  | None => throw "CastError"
  | Some id =>
      access (ExpenseFindByIdAndDelete id);; d ← read_db;
      write_db {| users := users d; expenses := delete id (expenses d) |};;
      mret (expenses d !! id)
  end.

(** [Expense.aggregate(pipeline)]. *)
Definition Expense_aggregate {A} (pipeline : list Expense -> A) : M A :=
  access ExpenseAggregate;; d ← read_db; mret (pipeline (documents d)).

(** The insert of [newExpense.save()], after validation. *)
Definition Expense_insert (id : ObjectId) (e : Expense) : M unit :=
  access (ExpenseSave id);; d ← read_db;
  match expenses d !! id with
  | Some _ => throw "E11000 duplicate key"
  | None => write_db {| users := users d; expenses := <[id := e]> (expenses d) |}
  end.

(** ** Schema casting and validation of [ExpenseSchema] *)

(** JavaScript truthiness. *)
Definition truthy (v : JValue) : bool :=
  match v with
  | JUndefined | JNull => false
  | JBool b => b
  | JNumber n => negb (n =? 0)
  | JString s => negb (bool_decide (s = EmptyString))
  | JObject _ => true
  end.

(** The time value of [new Date(v)]; [None] is an invalid date, which the
    [Date] path of the schema refuses.  An array or an object is first
    converted to its string, which is then parsed as a date string is. *)
Definition new_Date (env : Env) (v : JValue) : option Z :=
  match v with
  | JNumber n => if Z.abs n <=? 8640000000000000 then Some n else None
  | JString s => Date_parse env s
  | JBool b => Some (if b then 1 else 0)
  | JNull => Some 0
  | JObject text => Date_parse env text
  | JUndefined => None
  end.

(** [title: { type: String, required: true }].  What Mongoose reads
    inside an object (it takes a string [_id] of one for the title) is
    outside the model. *)
Definition cast_title (env : Env) (v : JValue) : option string :=
  match v with
  | JString s => if bool_decide (s = EmptyString) then None else Some s
  | JNumber n => Some (Number_text env n)
  | JBool b => Some (if b then "true" else "false")%string
  | JUndefined | JNull | JObject _ => None
  end.

(** [amount: { type: Number, required: true }]: the path has no [min]. *)
Definition cast_amount (env : Env) (v : JValue) : option Z :=
  match v with
  | JNumber n => Some n
  | JString s => if bool_decide (s = EmptyString) then None else Number_parse env s
  | JBool b => Some (if b then 1 else 0)
  | JUndefined | JNull | JObject _ => None
  end.

(** [category: { type: String, required: true, enum: [...] }]; of an
    object, as for the title. *)
Definition cast_category (v : JValue) : option Category :=
  match v with
  | JString "Food" => Some Food
  | JString "Travel" => Some Travel
  | JString "Bills" => Some Bills
  | JString "Other" => Some Other
  | _ => None
  end.

(** [new Expense({...})] followed by the validation of [save()]. *)
Definition new_Expense (env : Env) (owner : ObjectId)
    (title amount category : JValue) (date : option Z) : option Expense :=
  t ← cast_title env title;
  a ← cast_amount env amount;
  c ← cast_category category;
  d ← date;
  Some {| user := owner; title := t; amount := a; category := c; date := d |}.

(** ** The Express application *)

(** [protect]: the middleware of every expense, summary and income route.
    [next] receives the [_id] of [req.user]; [req.user.id] is its
    hexadecimal text, which casts back to it.  The handlers are [async],
    so what they throw does not reach the [catch] of [protect]. *)
Definition protect (env : Env) (req : Req.t) (next : ObjectId -> M Response)
  : M Response :=
  match Req.authorization req with
  | Some header =>
      if JS.startsWith "Bearer" header then
        r ← try_catch
              (let token := JS.split " " header !! 1%nat in
               match jwt_verify env token with
               | None => throw "JsonWebTokenError"
               | Some id =>
                   u ← User_findById_str id;
                   match u with
                   | None =>
                       mret (inl {| status := 401;
                                    json := Message "Not authorized, user not found" |})
                   | Some (uid, _) => mret (inr uid)
                   end
               end)
              (fun _ =>
                 mret (inl {| status := 401;
                              json := Message "Not authorized, token failed" |}));
        match r with
        | inl res => mret res
        | inr uid => next uid
        end
      else respond 401 (Message "Not authorized, no token")
  | None => respond 401 (Message "Not authorized, no token")
  end.

(** [POST /api/expenses]. *)
Definition post_expenses (env : Env) (req : Req.t) (uid : ObjectId) : M Response :=
  let title := Req.title (Req.req_body req) in
  let amount := Req.amount (Req.req_body req) in
  let category := Req.category (Req.req_body req) in
  let date := Req.date (Req.req_body req) in
  try_catch
    (match new_Expense env uid title amount category
             (if truthy date then new_Date env date else Some (Date_now env)) with
     | None => throw "ValidationError"
     | Some newExpense =>
         Expense_insert (new_ObjectId env) newExpense;;
         respond 201 (ExpenseDoc (new_ObjectId env) newExpense)
     end)
    (fun _ => respond 500 (Message "Server Error creating expense")).

(** [DELETE /api/expenses/:id]. *)
Definition delete_expense (req : Req.t) (uid : ObjectId) : M Response :=
  try_catch
    (expense ← Expense_findById (Req.params_id req);
     match expense with
     | None => respond 404 (Message "Expense not found")
     | Some e =>
         if bool_decide (user e ≠ uid)
         then respond 401 (Message "User not authorized")
         else
           Expense_findByIdAndDelete (Req.params_id req);;
           respond 200 (Message "Expense removed successfully")
     end)
    (fun _ => respond 500 (Message "Server Error deleting expense")).

(** The label of a month group:
    [`${item._id.year}-${String(item._id.month).padStart(2, '0')}`]. *)
Definition month_label (k : Mongo.YearMonth) : string :=
  JS.Number_toString (Mongo.year k) +:+ "-"
  +:+ JS.padStart 2 "0" (JS.Number_toString (Mongo.month k)).

Definition format_month (item : Mongo.Group Mongo.YearMonth) : MonthlyBucket.t :=
  MonthlyBucket.mk (month_label (Mongo._id item)) (Mongo.total item).

Definition format_day (d : Mongo.Group Z) : DailyBucket.t :=
  DailyBucket.mk (Mongo._id d) (Mongo.total d).

(** [GET /api/expenses/summary/monthly]. *)
Definition get_summary_monthly (uid : ObjectId) : M Response :=
  try_catch
    (monthlyData ← Expense_aggregate (Mongo.monthly_pipeline uid);
     let formattedData := format_month <$> monthlyData in
     respond 200 (MonthlyData formattedData))
    (fun _ => respond 500 (Message "Server Error getting monthly summary")).

(** [!month || !/^\d{4}-\d{2}$/.test(month)]. *)
Definition month_invalid (month : option string) : bool :=
  match month with
  | None => true
  | Some m => bool_decide (m = EmptyString) || negb (JS.month_pattern_test m)
  end.

(** [GET /api/expenses/summary/daily?month=YYYY-MM]. *)
Definition get_summary_daily (req : Req.t) (uid : ObjectId) : M Response :=
  let month := Req.query_month req in
  if month_invalid month
  then respond 400 (Message "A valid month query (YYYY-MM) is required")
  else
    let m := default EmptyString month in
    let year := JS.parseInt (JS.split "-" m !! 0%nat) in
    let monthNum := JS.parseInt (JS.split "-" m !! 1%nat) in
    try_catch
      (dailyData ← Expense_aggregate (Mongo.daily_pipeline uid year monthNum);
       respond 200 (DailyData m (format_day <$> dailyData)))
      (fun _ => respond 500 (Message "Server Error getting daily summary")).

(** [typeof income !== 'number' || income < 0]. *)
Definition income_invalid (income : JValue) : bool :=
  match income with
  | JNumber n => n <? 0
  | _ => true
  end.

(** The number a value of type ['number'] holds. *)
Definition number_value (v : JValue) : Z :=
  match v with
  | JNumber n => n
  | _ => 0
  end.

(** [POST /api/user/income]. *)
Definition post_user_income (req : Req.t) (uid : ObjectId) : M Response :=
  let income := Req.income (Req.req_body req) in
  if income_invalid income
  then respond 400 (Message "Invalid income amount")
  else
    try_catch
      (found ← User_findById uid;
       match found with
       | None => respond 404 (Message "User not found")
       | Some u =>
           let u' := {| name := name u; email := email u;
                        password := password u;
                        monthlyIncome := number_value income |} in
           User_save uid u';;
           respond 200 (IncomeData (monthlyIncome u'))
       end)
      (fun _ => respond 500 (Message "Server Error")).

(** The routes: [protect], then the handler. *)
Definition route_post_expenses (env : Env) (req : Req.t) : M Response :=
  protect env req (post_expenses env req).
Definition route_delete_expense (env : Env) (req : Req.t) : M Response :=
  protect env req (delete_expense req).
Definition route_summary_monthly (env : Env) (req : Req.t) : M Response :=
  protect env req get_summary_monthly.
Definition route_summary_daily (env : Env) (req : Req.t) : M Response :=
  protect env req (get_summary_daily req).
Definition route_user_income (env : Env) (req : Req.t) : M Response :=
  protect env req (post_user_income req).

(** ** The balance card of the [Dashboard] component *)

Module Dashboard.

(** [getFullYear] and [getMonth] read the local time: [tz t] is the offset
    of the browser's zone from UTC at the instant [t], in milliseconds.
    [getMonth] counts from 0. *)
Definition getFullYear (tz : Z -> Z) (t : Z) : Z := Calendar.year_of (t + tz t).
Definition getMonth (tz : Z -> Z) (t : Z) : Z := Calendar.month_of (t + tz t) - 1.

(** [const availableBalance = monthlyIncome - currentMonthTotal], over
    whole numbers. *)
Definition availableBalance (monthlyIncome currentMonthTotal : Z) : Z :=
  monthlyIncome - currentMonthTotal.


End Dashboard.

(** ** Amounts in an arithmetic of their own

    The sums of amounts are modelled without fixing the arithmetic: a
    document carries an amount of a type [A], and the [$sum] accumulator
    of a [$group] stage is a function [sum] from the amounts that reach a
    group, in the order of the scan, to the total of the group. *)

Module Doc.

(** A document of [ExpenseSchema] whose [amount] is a number of [A]. *)
Record t (A : Type) := mk {
  user : ObjectId;
  title : string;
  amount : A;
  category : Category;
  date : Z;
}.
Arguments mk {A} _ _ _ _ _.
Arguments user {A} _.
Arguments title {A} _.
Arguments amount {A} _.
Arguments category {A} _.
Arguments date {A} _.

End Doc.

(** An item of the monthly summary, as sent to the client. *)
Module Bucket.
Record t (A : Type) := mk { label : string; total : A }.
Arguments mk {A} _ _.
Arguments label {A} _.
Arguments total {A} _.
End Bucket.

Module Sum.

(** An output document of a [$group] stage with one [$sum] accumulator. *)
Record Group (K A : Type) := mkGroup { _id : K; total : A }.
Arguments mkGroup {K A} _ _.
Arguments _id {K A} _.
Arguments total {K A} _.

Section stages.
Context {K A : Type} `{EqDecision K}.

(** One input document reaches its group, whose amounts are kept in the
    order they arrive; a key seen for the first time opens a group. *)
Fixpoint accumulate (k : K) (a : A) (gs : list (K * list A)) : list (K * list A) :=
  match gs with
  | [] => [(k, [a])]
  | g :: gs' =>
      if decide (g.1 = k) then (k, g.2 ++ [a]) :: gs'
      else g :: accumulate k a gs'
  end.

(** The groups of a scan: each key with the amounts of its documents. *)
Definition gather (key : Doc.t A -> K) (docs : list (Doc.t A)) : list (K * list A) :=
  foldl (fun gs e => accumulate (key e) (Doc.amount e) gs) [] docs.

(** [{ $group: { _id: key, total: { $sum: '$amount' } } }]. *)
Definition group_stage (sum : list A -> A) (key : Doc.t A -> K)
    (docs : list (Doc.t A)) : list (Group K A) :=
  (fun g => mkGroup g.1 (sum g.2)) <$> gather key docs.

End stages.

(** [{ year: { $year: '$date' }, month: { $month: '$date' } }]. *)
Definition year_month {A} (e : Doc.t A) : Mongo.YearMonth :=
  Mongo.mkYearMonth (Calendar.year_of (Doc.date e)) (Calendar.month_of (Doc.date e)).

(** The order of [{ $sort: { '_id.year': 1, '_id.month': 1 } }]. *)
Definition ym_le {A} (a b : Group Mongo.YearMonth A) : Prop :=
  Mongo.year (_id a) < Mongo.year (_id b) \/
  (Mongo.year (_id a) = Mongo.year (_id b) /\ Mongo.month (_id a) <= Mongo.month (_id b)).

#[global] Instance ym_le_dec {A} : RelDecision (@ym_le A).
Proof. intros a b. unfold ym_le. apply _. Defined.

(** The pipeline of the monthly summary: [$match] on the owner, [$group]
    by year and month, [$sort]. *)
Definition monthly_pipeline {A} (sum : list A -> A) (owner : ObjectId)
    (docs : list (Doc.t A)) : list (Group Mongo.YearMonth A) :=
  merge_sort ym_le
    (group_stage sum year_month (filter (fun e => Doc.user e = owner) docs)).

(** The order of [{ $sort: { '_id': 1 } }] on day numbers. *)
Definition day_le {A} (a b : Group Z A) : Prop := _id a <= _id b.

#[global] Instance day_le_dec {A} : RelDecision (@day_le A).
Proof. intros a b. unfold day_le. apply _. Defined.

(** The pipeline of the daily summary: [$match] on the owner and, by
    [$expr], on the year and the month ([None] is [NaN], equal to no
    field), [$group] by day of the month, [$sort]. *)
Definition daily_pipeline {A} (sum : list A -> A) (owner : ObjectId)
    (yr monthNum : option Z) (docs : list (Doc.t A)) : list (Group Z A) :=
  merge_sort day_le
    (group_stage sum (fun e => Calendar.day_of (Doc.date e))
       (filter (fun e => Doc.user e = owner
                         /\ Some (Calendar.year_of (Doc.date e)) = yr
                         /\ Some (Calendar.month_of (Doc.date e)) = monthNum) docs)).

Definition format_month {A} (item : Group Mongo.YearMonth A) : Bucket.t A :=
  Bucket.mk (month_label (_id item)) (total item).

(** What the monthly route sends for the documents of a scan:
    [monthlyData.map(item => ({ label, total: item.total }))]. *)
Definition monthlySummary {A} (sum : list A -> A) (owner : ObjectId)
    (docs : list (Doc.t A)) : list (Bucket.t A) :=
  format_month <$> monthly_pipeline sum owner docs.

End Sum.

(** ** Doubles *)

Module Double.

(** [values.reduce((a, b) => a + b, 0)]: the numbers are added one after
    the other, each addition rounded to the nearest double. *)
Definition sum (l : list float) : float := foldl PrimFloat.add 0%float l.

(** The exact value of a finite double, in units of 2^-1074 (0 for an
    infinity and for [NaN]). *)
Definition scaled (x : float) : Z :=
  match Prim2SF x with
  | S754_finite s m e => (if s then -1 else 1) * Z.pos m * 2 ^ (e + 1074)
  | _ => 0
  end.

End Double.

(** ** The balance card over time

    The total on the card, over the doubles the browser holds. *)

Module Card.

(** The callback of [useMemo]: [now] is the value of [new Date()] when it
    runs.  An expense of the list is the document the server sent;
    [new Date(expense.date)] is its time value again. *)
Definition currentMonthTotal (tz : Z -> Z) (now : Z) (expenses : list (Doc.t float))
  : float :=
  let currentYear := Dashboard.getFullYear tz now in
  let currentMonth := Dashboard.getMonth tz now in
  foldl (fun total expense => (total + Doc.amount expense)%float) 0%float
    (filter (fun expense =>
               let expenseDate := Doc.date expense in
               Dashboard.getFullYear tz expenseDate = currentYear
               /\ Dashboard.getMonth tz expenseDate = currentMonth) expenses).

(** An array held in state: React compares dependencies with
    [Object.is], which on arrays is identity, so an array is modelled with
    the identity [ref] of the object besides its elements. *)
Record ArrayRef := { ref : nat; elems : list (Doc.t float) }.

(** The cell of one [useMemo(create, [expenses])] hook: the dependency and
    the value of the last computation. *)
Record Memo := { deps : nat; value : float }.

Definition useMemo (cell : option Memo) (dep : nat) (create : unit -> float) : Memo :=
  match cell with
  | Some c =>
      if bool_decide (deps c = dep) then c
      else {| deps := dep; value := create tt |}
  | None => {| deps := dep; value := create tt |}
  end.

(** The state of the component the balance card reads. *)
Record State := {
  expenses : ArrayRef;
  monthlyIncome : float;
  memo : option Memo;
}.

(** What one render shows on the balance card. *)
Record View := {
  shown_total : float;
  shown_balance : float;
  shown_class : string;
}.

(** One render of the component at the instant [now]:
    [availableBalance = monthlyIncome - currentMonthTotal] and
    [availableBalance >= 0 ? 'balance-positive' : 'balance-negative']. *)
Definition render (tz : Z -> Z) (now : Z) (st : State) : View * State :=
  let cell :=
    useMemo (memo st) (ref (expenses st))
      (fun _ => currentMonthTotal tz now (elems (expenses st))) in
  let availableBalance := (monthlyIncome st - value cell)%float in
  ({| shown_total := value cell;
      shown_balance := availableBalance;
      shown_class := if (0 <=? availableBalance)%float
                     then "balance-positive" else "balance-negative" |},
   {| expenses := expenses st; monthlyIncome := monthlyIncome st;
      memo := Some cell |}).

(** [setExpenses(arr)]: every call of the component passes a new array. *)
Definition setExpenses (arr : list (Doc.t float)) (st : State) : State :=
  {| expenses := {| ref := S (ref (expenses st)); elems := arr |};
     monthlyIncome := monthlyIncome st;
     memo := memo st |}.

(** [setMonthlyIncome(n)]. *)
Definition setMonthlyIncome (n : float) (st : State) : State :=
  {| expenses := expenses st; monthlyIncome := n; memo := memo st |}.


(** The state at mount: [useState([])], [useState(0)], no memo cell yet. *)
Definition initial : State :=
  {| expenses := {| ref := 0; elems := [] |}; monthlyIncome := 0%float;
     memo := None |}.

(** The states the component goes through, from the state at mount, by
    renders and by the setters, each with the instants of the renders so
    far, the latest first. *)
Inductive reached (tz : Z -> Z) : list Z -> State -> Prop :=
  | reached_initial : reached tz [] initial
  | reached_render now times st :
      reached tz times st -> reached tz (now :: times) (render tz now st).2
  | reached_setExpenses arr times st :
      reached tz times st -> reached tz times (setExpenses arr st)
  | reached_setMonthlyIncome n times st :
      reached tz times st -> reached tz times (setMonthlyIncome n st).

End Card.

(** ** Sums the specification speaks of *)

Definition sumZ (l : list Z) : Z := foldr Z.add 0 l.
Arguments sumZ : simpl never.

(** The expenses of a list that [owner] owns. *)
Definition owned_by (owner : ObjectId) (docs : list Expense) : list Expense :=
  filter (fun e => user e = owner) docs.

(** The user a request is made by: the user of the collection that the
    token of a [Bearer] header, verified, names; [None] for a request
    [protect] turns away. *)
Definition caller (env : Env) (req : Req.t) (d : DB) : option ObjectId :=
  header ← Req.authorization req;
  if JS.startsWith "Bearer" header then
    id ← jwt_verify env (JS.split " " header !! 1%nat);
    uid ← Mongo.castObjectId id;
    _ ← users d !! uid;
    Some uid
  else None.

(** The numeric month of a [month] query, as the daily handler reads it. *)
Definition month_number (month : string) : option Z :=
  JS.parseInt (JS.split "-" month !! 1%nat).

(** Strictly earlier: by year, then by month. *)
Definition ym_lt (a b : Mongo.Group Mongo.YearMonth) : Prop :=
  Mongo.year (Mongo._id a) < Mongo.year (Mongo._id b)
  \/ (Mongo.year (Mongo._id a) = Mongo.year (Mongo._id b)
      /\ Mongo.month (Mongo._id a) < Mongo.month (Mongo._id b)).

(** The text of a year is four decimal digits that read back as it. *)
Definition four_digits (y : Z) : bool :=
  match JS.Number_toString y with
  | String a (String b (String c (String d EmptyString))) =>
      JS.is_digit a && JS.is_digit b && JS.is_digit c && JS.is_digit d
      && (1000 * JS.digit_value a + 100 * JS.digit_value b
          + 10 * JS.digit_value c + JS.digit_value d =? y)
  | _ => false
  end.

(** The padded text of a month is two decimal digits that read back as
    it. *)
Definition two_digits (m : Z) : bool :=
  match JS.padStart 2 "0" (JS.Number_toString m) with
  | String e (String f EmptyString) =>
      JS.is_digit e && JS.is_digit f
      && (10 * JS.digit_value e + JS.digit_value f =? m)
  | _ => false
  end.

(** Running a handler from a state of the collections with an empty log. *)
Definition run {A} (m : M A) (d : DB) : Outcome A * World :=
  m {| db := d; log := [] |}.

(** ** Sample data

    Two users and the expenses of the scenario of the specification: the
    first user spent 100 on 2024-01-05, 50 on 2024-01-20 and 75 on
    2024-02-01. *)

Definition alice : ObjectId := 1%N.
Definition bob : ObjectId := 2%N.

Definition sample_env : Env :=
  {| jwt_verify := fun token =>
       match token with
       | Some "token-alice" => Some "000000000000000000000001"
       | Some "token-bob" => Some "000000000000000000000002"
       | _ => None
       end%string;
     Date_now := Calendar.utc 2024 3 1;
     new_ObjectId := 255%N;
     Date_parse := fun _ => None;
     Number_parse := fun _ => None;
     Number_text := JS.Number_toString |}.

Definition expense (owner : ObjectId) (a : Z) (t : Z) : Expense :=
  {| user := owner; title := "item"; amount := a; category := Other; date := t |}.

Definition sample_users : gmap N User :=
  {[ alice := {| name := "Alice"; email := "alice@example.org";
                 password := "$2a$10$hash"; monthlyIncome := 0 |};
     bob := {| name := "Bob"; email := "bob@example.org";
               password := "$2a$10$hash"; monthlyIncome := 500 |} ]}.

Definition sample_db : DB :=
  {| users := sample_users;
     expenses :=
       {[ 16%N := expense alice 100 (Calendar.utc 2024 1 5);
          17%N := expense alice 50 (Calendar.utc 2024 1 20);
          18%N := expense alice 75 (Calendar.utc 2024 2 1);
          19%N := expense bob 30 (Calendar.utc 2024 1 9) ]} |}.

(** The same users, the first with one expense dated 1 June of the year
    99. *)
Definition early_db : DB :=
  {| users := sample_users;
     expenses := {[ 16%N := expense alice 7 (Calendar.utc 99 6 1) ]} |}.

Definition no_body : Req.body :=
  Req.mkBody JUndefined JUndefined JUndefined JUndefined JUndefined.

(** A request of the first user. *)
Definition alice_request (id : string) (month : option string) (b : Req.body)
  : Req.t :=
  Req.mk (Some "Bearer token-alice"%string) id month b.

(** ** The other routes of the server

    The routes below answer with a body of their own; their accesses to
    the collections are not entered in the access log. *)

(** An answer whose body is a value of [A] or a [message]. *)
Inductive Body (A : Type) :=
  | Json (a : A)
  | Failure (message : string).
Arguments Json {A} _.
Arguments Failure {A} _.

Record Reply (A : Type) := mkReply { code : Z; body : Body A }.
Arguments mkReply {A} _ _.
Arguments code {A} _.
Arguments body {A} _.

(** The order of [.sort({ date: -1 })]: later dates first. *)
Definition date_ge (a b : ObjectId * Expense) : Prop := date b.2 <= date a.2.

#[global] Instance date_ge_dec : RelDecision date_ge.
Proof. intros a b. unfold date_ge. apply _. Defined.

(** [Expense.find({ user }).sort({ date: -1 })]: the documents of the
    owner with their [_id], later dates first. *)
Definition Expense_find_sorted (owner : ObjectId) : M (list (ObjectId * Expense)) :=
  d ← read_db;
  mret (merge_sort date_ge
          (filter (fun p => user p.2 = owner) (map_to_list (expenses d)))).

(** [GET /api/expenses], after [protect]. *)
Definition get_expenses (uid : ObjectId) : M (Reply (list (ObjectId * Expense))) :=
  try_catch
    (found ← Expense_find_sorted uid; mret (mkReply 200 (Json found)))
    (fun _ => mret (mkReply 500 (Failure "Server Error fetching expenses"))).

(** [GET /api/user/income], after [protect]. *)
Definition get_user_income (uid : ObjectId) : M Response :=
  try_catch
    (found ← User_findById uid;
     match found with
     | None => respond 404 (Message "User not found")
     | Some u => respond 200 (IncomeData (monthlyIncome u))
     end)
    (fun _ => respond 500 (Message "Server Error")).

(** The text of an [ObjectId]: 24 hexadecimal digits, lower case. *)
Definition hex_char (v : N) : ascii :=
  match v with
  | 0 => "0" | 1 => "1" | 2 => "2" | 3 => "3" | 4 => "4" | 5 => "5"
  | 6 => "6" | 7 => "7" | 8 => "8" | 9 => "9" | 10 => "a" | 11 => "b"
  | 12 => "c" | 13 => "d" | 14 => "e" | _ => "f"
  end%N%char.

Fixpoint hex_string (k : nat) (v : N) : string :=
  match k with
  | O => EmptyString
  | S k' => hex_string k' (v / 16)%N +:+ String (hex_char (v mod 16)%N) EmptyString
  end.

Definition ObjectId_toString (id : ObjectId) : string := hex_string 24 id.

Module Auth.

(** What a request to one of the two authentication routes takes from
    outside the collections: [bcrypt.hash] with the salt the request
    draws, [bcrypt.compare] on two strings, [jwt.sign] under the server's
    secret of a payload with the given [id], issued at the given second
    ([iat]; [exp] is 30 days later), the clock in milliseconds, and the
    [ObjectId] a new user gets. *)
Record env := mkEnv {
  bcrypt_hash : string -> string;
  bcrypt_compare : string -> string -> bool;
  jwt_sign : string -> Z -> string;
  Date_now : Z;
  new_ObjectId : ObjectId;
}.

(** The fields the register route destructures from [req.body]; the model
    covers the bodies that hold strings there. *)
Record body := mkBody {
  name : string;
  email : string;
  password : string;
}.

(** The fields the login route destructures from [req.body]; the model
    covers the bodies whose [email] is a string, with any [password]. *)
Record credentials := mkCredentials {
  login_email : string;
  login_password : JValue;
}.

(** The body of a successful answer:
    [{ _id, name, email, token }]. *)
Record info := mkInfo {
  info_id : ObjectId;
  info_name : string;
  info_email : string;
  token : string;
}.

End Auth.

(** [generateToken(id)]: the payload holds the text of the [ObjectId] and
    the second of the clock at which the token is issued. *)
Definition generateToken (aenv : Auth.env) (id : ObjectId) : string :=
  Auth.jwt_sign aenv (ObjectId_toString id) (Auth.Date_now aenv / 1000).

(** The first user of a scan of the collection with a given email. *)
Definition user_with_email (mail : string) (d : DB) : option (ObjectId * User) :=
  head (filter (fun p => email p.2 = mail) (map_to_list (users d))).

(** [User.findOne({ email })]. *)
Definition User_findOne (mail : string) : M (option (ObjectId * User)) :=
  d ← read_db; mret (user_with_email mail d).

(** [User.create({ name, email, password })]: the three paths are
    [required], so an empty string fails validation; the [pre('save')]
    hook replaces the password by its hash; [monthlyIncome] takes its
    default; the insert fails on a taken [_id] and, by the unique index,
    on a taken email. *)
Definition User_create (aenv : Auth.env) (b : Auth.body) : M (ObjectId * User) :=
  if bool_decide (Auth.name b = EmptyString)
     || bool_decide (Auth.email b = EmptyString)
     || bool_decide (Auth.password b = EmptyString)
  then throw "ValidationError"
  else
    d ← read_db;
    let id := Auth.new_ObjectId aenv in
    let u := {| name := Auth.name b; email := Auth.email b;
                password := Auth.bcrypt_hash aenv (Auth.password b);
                monthlyIncome := 0 |} in
    match users d !! id, user_with_email (Auth.email b) d with
    | None, None =>
        write_db {| users := <[id := u]> (users d); expenses := expenses d |};;
        mret (id, u)
    | _, _ => throw "E11000 duplicate key"
    end.

(** [POST /api/auth/register]. *)
Definition post_auth_register (aenv : Auth.env) (b : Auth.body)
  : M (Reply Auth.info) :=
  try_catch
    (userExists ← User_findOne (Auth.email b);
     match userExists with
     | Some _ => mret (mkReply 400 (Failure "User with this email already exists"))
     | None =>
         created ← User_create aenv b;
         mret (mkReply 201
                 (Json (Auth.mkInfo created.1 (name created.2) (email created.2)
                          (generateToken aenv created.1))))
     end)
    (fun _ => mret (mkReply 500 (Failure "Server error during registration"))).

(** [await bcrypt.compare(password, hash)] on a value of the body:
    [bcryptjs] throws unless the value is a string. *)
Definition bcrypt_compare_value (aenv : Auth.env) (password : JValue) (hash : string)
  : M bool :=
  match password with
  | JString s => mret (Auth.bcrypt_compare aenv s hash)
  | _ => throw "Illegal arguments"
  end.

(** [POST /api/auth/login]: [user && (await bcrypt.compare(...))] compares
    only when a user was found. *)
Definition post_auth_login (aenv : Auth.env) (b : Auth.credentials)
  : M (Reply Auth.info) :=
  try_catch
    (found ← User_findOne (Auth.login_email b);
     match found with
     | Some (id, u) =>
         matched ← bcrypt_compare_value aenv (Auth.login_password b) (password u);
         if (matched : bool)
         then mret (mkReply 200
                      (Json (Auth.mkInfo id (name u) (email u) (generateToken aenv id))))
         else mret (mkReply 401 (Failure "Invalid email or password"))
     | None => mret (mkReply 401 (Failure "Invalid email or password"))
     end)
    (fun _ => mret (mkReply 500 (Failure "Server error during login"))).

(** ** The theme toggle *)

Module ThemeToggle.

(** [localStorage.getItem('theme') || 'light']: a missing item and the
    empty string give ['light']. *)
Definition initial_theme (localStorage : gmap string string) : string :=
  match localStorage !! "theme"%string with
  | Some t => if bool_decide (t = EmptyString) then "light" else t
  | None => "light"
  end.

(** [prevTheme => (prevTheme === 'light' ? 'dark' : 'light')]. *)
Definition handleToggle (prevTheme : string) : string :=
  if bool_decide (prevTheme = "light"%string) then "dark" else "light".

(** [checked={theme === 'dark'}]. *)
Definition checked (theme : string) : bool := bool_decide (theme = "dark"%string).

(** What the component writes outside itself: the storage of the origin
    and the [data-theme] attribute of the document element. *)
Record Page := {
  localStorage : gmap string string;
  data_theme : option string;
}.

(** The effect of [useEffect(..., [theme])]. *)
Definition apply_theme (theme : string) (p : Page) : Page :=
  {| localStorage := <["theme"%string := theme]> (localStorage p);
     data_theme := Some theme |}.

(** The component with its page: the [theme] in state, the effect run. *)
Definition mount (p : Page) : string * Page :=
  let theme := initial_theme (localStorage p) in (theme, apply_theme theme p).

(** A click on the switch: the state changes, the effect runs again. *)
Definition click (st : string * Page) : string * Page :=
  let theme := handleToggle st.1 in (theme, apply_theme theme st.2).

End ThemeToggle.

(** ** Notions the further properties speak of *)

(** No character of the string is [c]. *)
Fixpoint free_of (c : ascii) (s : string) : bool :=
  match s with
  | EmptyString => true
  | String x s' => negb (bool_decide (x = c)) && free_of c s'
  end.

(** An array or an object. *)
Definition is_object (v : JValue) : bool :=
  match v with
  | JObject _ => true
  | _ => false
  end.

(** Strictly ascending day groups. *)
Definition day_lt (a b : Mongo.Group Z) : Prop := Mongo._id a < Mongo._id b.

(** Strictly ascending day buckets. *)
Definition bucket_day_lt (a b : DailyBucket.t) : Prop :=
  DailyBucket.day a < DailyBucket.day b.

(** The amounts a list of groups holds for a key: those of its first
    group, none without one. *)
Fixpoint members_of {K A} `{EqDecision K} (k : K) (gs : list (K * list A)) : list A :=
  match gs with
  | [] => []
  | g :: gs' => if decide (g.1 = k) then g.2 else members_of k gs'
  end.

(** An expense of the handlers as a document whose amount is a whole
    number. *)
Definition as_doc (e : Expense) : Doc.t Z :=
  Doc.mk (user e) (title e) (amount e) (category e) (date e).

(** The documents of a list that [owner] owns. *)
Definition owned {A} (owner : ObjectId) (docs : list (Doc.t A)) : list (Doc.t A) :=
  filter (fun e => Doc.user e = owner) docs.

(** The amounts of the documents of [owner] dated, in UTC, in the year
    and month [k], in the order of the list. *)
Definition month_amounts {A} (owner : ObjectId) (k : Mongo.YearMonth)
    (docs : list (Doc.t A)) : list A :=
  Doc.amount <$> filter (fun e => Sum.year_month e = k) (owned owner docs).


(** The documents of a list dated in the local year and month of [now]. *)
Definition of_month {A} (tz : Z -> Z) (now : Z) (l : list (Doc.t A)) : list (Doc.t A) :=
  filter (fun e =>
            Calendar.year_of (Doc.date e + tz (Doc.date e)) = Calendar.year_of (now + tz now)
            /\ Calendar.month_of (Doc.date e + tz (Doc.date e))
               = Calendar.month_of (now + tz now)) l.

(** An expense of the sample data with a double for its amount. *)
Definition double_expense (owner : ObjectId) (a : float) (t : Z) : Doc.t float :=
  Doc.mk owner "item" a Other t.

(** What a request of [uid] must leave alone: the expenses owned by
    other users and the records of the other users. *)
Definition others_untouched (uid : ObjectId) (d d' : DB) : Prop :=
  (forall id e, expenses d !! id = Some e -> user e <> uid ->
                expenses d' !! id = Some e)
  /\ (forall other, other <> uid -> users d' !! other = users d !! other).

(** The user a registration stores. *)
Definition registered (aenv : Auth.env) (b : Auth.body) : User :=
  {| name := Auth.name b; email := Auth.email b;
     password := Auth.bcrypt_hash aenv (Auth.password b);
     monthlyIncome := 0 |}.

(** Stand-ins for [bcrypt] and [jsonwebtoken] in examples: a hash that
    prefixes, a signature that joins the second of issue and the [id], and
    the verifier that goes with it, for a request at the clock [now]. *)
Definition sample_auth_at (now : Z) : Auth.env :=
  {| Auth.bcrypt_hash := fun pw => ("$2a$10$" +:+ pw)%string;
     Auth.bcrypt_compare := fun pw hash => bool_decide (hash = "$2a$10$" +:+ pw)%string;
     Auth.jwt_sign := fun id iat => (pretty iat +:+ "." +:+ id)%string;
     Auth.Date_now := now;
     Auth.new_ObjectId := 3%N |}.

Definition sample_auth : Auth.env := sample_auth_at (Calendar.utc 2024 3 1).

(** The part of a token after its first dot. *)
Fixpoint after_dot (s : string) : option string :=
  match s with
  | EmptyString => None
  | String c s' => if bool_decide (c = "."%char) then Some s' else after_dot s'
  end.

Definition session_env : Env :=
  {| jwt_verify := fun token => token ≫= after_dot;
     Date_now := Calendar.utc 2024 3 1;
     new_ObjectId := 255%N;
     Date_parse := fun _ => None;
     Number_parse := fun _ => None;
     Number_text := JS.Number_toString |}.

Definition carol : Auth.body :=
  Auth.mkBody "Carol" "carol@example.org" "correct horse".

(** * Properties *)

(** ** Calendar *)

(** [$month] is a month of the year at every instant. *)
Lemma month_of_range t : 1 <= Calendar.month_of t <= 12.
Proof.
  unfold Calendar.month_of, Calendar.civil_from_days. cbn [fst snd].
  set (z := Calendar.day_number t + 719468).
  set (doe := z mod 146097).
  assert (Hdoe : 0 <= doe < 146097) by (apply Z.mod_pos_bound; lia).
  clearbody doe. clear z.
  set (yoe := (doe - doe / 1460 + doe / 36524 - doe / 146096) / 365).
  set (doy := doe - (365 * yoe + yoe / 4 - yoe / 100)).
  assert (Hdoy : -61 <= doy <= 672).
  { subst doy yoe. Z.div_mod_to_equations. lia. }
  clearbody doy.
  set (mp := (5 * doy + 2) / 153).
  assert (Hmp : -2 <= mp <= 21).
  { subst mp. Z.div_mod_to_equations. lia. }
  clearbody mp.
  destruct (mp <? 10) eqn:E; [apply Z.ltb_lt in E | apply Z.ltb_ge in E]; lia.
Qed.

(** ** Sums and the [$group] stage *)

Lemma sumZ_nil : sumZ [] = 0.
Proof. reflexivity. Qed.

Lemma sumZ_cons x l : sumZ (x :: l) = x + sumZ l.
Proof. reflexivity. Qed.

Lemma sumZ_app l1 l2 : sumZ (l1 ++ l2) = sumZ l1 + sumZ l2.
Proof. unfold sumZ. induction l1 as [|x l1 IH]; cbn; lia. Qed.

Lemma sumZ_Permutation l1 l2 : l1 ≡ₚ l2 -> sumZ l1 = sumZ l2.
Proof. unfold sumZ. induction 1; cbn; lia. Qed.

Section group_stage.
Context {K : Type} `{EqDecision K}.
Implicit Types (k : K) (gs : list (Mongo.Group K)) (docs : list Expense).

Lemma group_stage_snoc (key : Expense -> K) docs e :
  Mongo.group_stage key (docs ++ [e])
  = Mongo.accumulate (key e) (amount e) (Mongo.group_stage key docs).
Proof. unfold Mongo.group_stage. by rewrite foldl_app. Qed.

Lemma accumulate_keys k a gs :
  Mongo._id <$> Mongo.accumulate k a gs
  = if decide (k ∈ Mongo._id <$> gs) then Mongo._id <$> gs
    else (Mongo._id <$> gs) ++ [k].
Proof.
  induction gs as [|g gs IH]; cbn.
  - rewrite decide_False; [done | apply not_elem_of_nil].
  - destruct (decide (Mongo._id g = k)) as [Hg | Hg]; cbn.
    + subst k. rewrite decide_True; [done | apply list_elem_of_here].
    + rewrite IH. destruct (decide (k ∈ Mongo._id <$> gs)) as [Hin | Hin].
      * rewrite decide_True; [done | by apply list_elem_of_further].
      * rewrite decide_False; [done |].
        intros [?|?]%elem_of_cons; congruence.
Qed.

(** A [$group] stage yields one group per key ... *)
Lemma group_stage_NoDup (key : Expense -> K) docs :
  NoDup (Mongo._id <$> Mongo.group_stage key docs).
Proof.
  induction docs as [|e docs IH] using rev_ind; [apply NoDup_nil_2 |].
  rewrite group_stage_snoc, accumulate_keys. case_decide; [done |].
  apply NoDup_app. split_and!; [done | | apply NoDup_singleton].
  intros x Hx ->%list_elem_of_singleton. done.
Qed.

(** ... each key is that of an input document ... *)
Lemma group_stage_key (key : Expense -> K) docs k :
  k ∈ Mongo._id <$> Mongo.group_stage key docs -> exists e, e ∈ docs /\ key e = k.
Proof.
  induction docs as [|e docs IH] using rev_ind.
  - intros []%elem_of_nil.
  - rewrite group_stage_snoc, accumulate_keys. case_decide.
    + intros (e' & ? & ?)%IH. exists e'. split; [| done].
      apply elem_of_app. by left.
    + intros [Hk | ->%list_elem_of_singleton]%elem_of_app.
      * destruct (IH Hk) as (e' & ? & ?). exists e'. split; [| done].
        apply elem_of_app. by left.
      * exists e. split; [| done].
        apply elem_of_app. right. by apply list_elem_of_singleton.
Qed.

(** ... and every input document has its key among them. *)
Lemma group_stage_key_in (key : Expense -> K) docs e :
  e ∈ docs -> key e ∈ Mongo._id <$> Mongo.group_stage key docs.
Proof.
  induction docs as [|e' docs IH] using rev_ind; [by intros ?%elem_of_nil |].
  rewrite group_stage_snoc, accumulate_keys.
  intros [Hin | ->%list_elem_of_singleton]%elem_of_app.
  - case_decide; [by apply IH |]. apply elem_of_app. left. by apply IH.
  - case_decide; [done |]. apply elem_of_app. right. apply list_elem_of_here.
Qed.

End group_stage.

(** ** The middleware *)

Ltac unfold_monad :=
  unfold run, respond, try_catch, throw, access, read_db, write_db,
    mbind, M_bind, mret, M_ret in *.

(** An authenticated request reaches its handler after one read of the
    user collection, with the collections as they were. *)
Lemma protect_caller env req d uid (next : ObjectId -> M Response) :
  caller env req d = Some uid ->
  run (protect env req next) d = next uid {| db := d; log := [UserFindById uid] |}.
Proof.
  unfold caller, protect. intros Hc.
  destruct (Req.authorization req) as [header|]; [| done]. cbn in Hc.
  destruct (JS.startsWith "Bearer" header); [| done].
  destruct (jwt_verify env _) as [id|]; [| done]. cbn in Hc.
  unfold User_findById_str, User_findById.
  destruct (Mongo.castObjectId id) as [uid'|]; [| done]. cbn in Hc.
  destruct (users d !! uid') as [u|] eqn:Hu; [| done]. cbn in Hc.
  injection Hc as ->.
  unfold_monad. cbn. rewrite Hu. reflexivity.
Qed.

(** X3. Any other request is answered 401, with the collections as they
    were and no access to the expenses. *)
Lemma protect_denied env req d (next : ObjectId -> M Response) :
  caller env req d = None ->
  exists msg w,
    run (protect env req next) d
    = (Returned {| status := 401; json := Message msg |}, w)
    /\ db w = d /\ Forall (fun op => on_expenses op = false) (log w).
Proof.
  unfold caller, protect. intros Hc.
  destruct (Req.authorization req) as [header|];
    [| by eexists _, _; split_and!; [reflexivity | done | constructor]].
  cbn in Hc.
  destruct (JS.startsWith "Bearer" header);
    [| by eexists _, _; split_and!; [reflexivity | done | constructor]].
  destruct (jwt_verify env _) as [id|];
    [| by eexists _, _; split_and!; [reflexivity | done | constructor]].
  cbn in Hc. unfold User_findById_str, User_findById.
  destruct (Mongo.castObjectId id) as [uid'|];
    [| by eexists _, _; split_and!; [reflexivity | done | constructor]].
  cbn in Hc.
  destruct (users d !! uid') as [u|] eqn:Hu; [done |].
  eexists _, _. unfold_monad. cbn. rewrite Hu. cbn.
  split_and!; [reflexivity | done | by repeat constructor].
Qed.

(** X3, at a request without an [Authorization] header. *)
Lemma protect_denied_witness :
  exists msg w,
    run (protect sample_env (Req.mk None "" None no_body) get_summary_monthly) sample_db
    = (Returned {| status := 401; json := Message msg |}, w)
    /\ db w = sample_db /\ Forall (fun op => on_expenses op = false) (log w).
Proof.
  apply (protect_denied sample_env (Req.mk None "" None no_body) sample_db
           get_summary_monthly).
  reflexivity.
Defined.

(** ** Monthly summary *)

Lemma get_summary_monthly_run uid w :
  get_summary_monthly uid w
  = (Returned {| status := 200;
                 json := MonthlyData
                   (format_month <$> Mongo.monthly_pipeline uid (documents (db w))) |},
     {| db := db w; log := log w ++ [ExpenseAggregate] |}).
Proof. reflexivity. Qed.

(** The scenario of the specification: the monthly summary of the first
    user. *)
Example scenario_monthly :
  (run (route_summary_monthly sample_env (alice_request "" None no_body)) sample_db).1
  = Returned {| status := 200;
                json := MonthlyData [MonthlyBucket.mk "2024-01" 150;
                                     MonthlyBucket.mk "2024-02" 75] |}.
Proof. vm_compute. reflexivity. Qed.

(** ** The totals of the monthly summary *)

Lemma sumZ_fmap_ext {B} (f g : B -> Z) (l : list B) :
  (forall x, x ∈ l -> f x = g x) -> sumZ (f <$> l) = sumZ (g <$> l).
Proof.
  induction l as [|x l IH]; intros Hfg; [done |].
  rewrite !fmap_cons, !sumZ_cons, IH.
  - rewrite (Hfg x); [done | apply list_elem_of_here].
  - intros y Hy. by apply Hfg, list_elem_of_further.
Qed.

Lemma sumZ_concat {B} (f : B -> Z) (ls : list (list B)) :
  sumZ ((fun l => sumZ (f <$> l)) <$> ls) = sumZ (f <$> concat ls).
Proof.
  induction ls as [|l ls IH]; [done |].
  rewrite fmap_cons, sumZ_cons, IH. cbn [concat]. by rewrite fmap_app, sumZ_app.
Qed.

Section gather.
Context {K A : Type} `{EqDecision K}.
Implicit Types (k : K) (gs : list (K * list A)) (docs : list (Doc.t A)).

Lemma gather_snoc (key : Doc.t A -> K) docs e :
  Sum.gather key (docs ++ [e])
  = Sum.accumulate (key e) (Doc.amount e) (Sum.gather key docs).
Proof. unfold Sum.gather. by rewrite foldl_app. Qed.

Lemma gather_accumulate_keys k a gs :
  (Sum.accumulate k a gs).*1
  = if decide (k ∈ gs.*1) then gs.*1 else gs.*1 ++ [k].
Proof.
  induction gs as [|g gs IH]; cbn.
  - rewrite decide_False; [done | apply not_elem_of_nil].
  - destruct (decide (g.1 = k)) as [Hg | Hg]; cbn.
    + subst k. rewrite decide_True; [done | apply list_elem_of_here].
    + rewrite IH. destruct (decide (k ∈ gs.*1)) as [Hin | Hin].
      * rewrite decide_True; [done | by apply list_elem_of_further].
      * rewrite decide_False; [done |].
        intros [?|?]%elem_of_cons; congruence.
Qed.

Lemma gather_accumulate_members k k' a gs :
  members_of k (Sum.accumulate k' a gs)
  = members_of k gs ++ (if decide (k' = k) then [a] else []).
Proof.
  induction gs as [|g gs IH]; cbn.
  - by destruct (decide (k' = k)).
  - destruct (decide (g.1 = k')) as [Hg | Hg]; cbn.
    + subst k'. destruct (decide (g.1 = k)); [done | by rewrite app_nil_r].
    + destruct (decide (g.1 = k)) as [Hk | Hk]; [| apply IH].
      subst k. rewrite decide_False by done. by rewrite app_nil_r.
Qed.

Lemma gather_accumulate_concat k a gs :
  concat (Sum.accumulate k a gs).*2 ≡ₚ concat gs.*2 ++ [a].
Proof.
  induction gs as [|g gs IH]; cbn; [done |].
  destruct (decide (g.1 = k)); cbn.
  - rewrite <- !(assoc_L (++)). apply Permutation_app_head, Permutation_app_comm.
  - rewrite IH. by rewrite (assoc_L (++)).
Qed.

(** The groups of a scan have one key each ... *)
Lemma gather_NoDup (key : Doc.t A -> K) docs : NoDup (Sum.gather key docs).*1.
Proof.
  induction docs as [|e docs IH] using rev_ind; [apply NoDup_nil_2 |].
  rewrite gather_snoc, gather_accumulate_keys. case_decide; [done |].
  apply NoDup_app. split_and!; [done | | apply NoDup_singleton].
  intros x Hx ->%list_elem_of_singleton. done.
Qed.

(** ... the key of every document is among them ... *)
Lemma gather_key_in (key : Doc.t A -> K) docs e :
  e ∈ docs -> key e ∈ (Sum.gather key docs).*1.
Proof.
  induction docs as [|e' docs IH] using rev_ind; [by intros ?%elem_of_nil |].
  rewrite gather_snoc, gather_accumulate_keys.
  intros [Hin | ->%list_elem_of_singleton]%elem_of_app.
  - case_decide; [by apply IH |]. apply elem_of_app. left. by apply IH.
  - case_decide; [done |]. apply elem_of_app. right. apply list_elem_of_here.
Qed.

(** ... each key is that of a document ... *)
Lemma gather_key (key : Doc.t A -> K) docs k :
  k ∈ (Sum.gather key docs).*1 -> exists e, e ∈ docs /\ key e = k.
Proof.
  induction docs as [|e docs IH] using rev_ind.
  - intros []%elem_of_nil.
  - rewrite gather_snoc, gather_accumulate_keys. case_decide.
    + intros (e' & ? & ?)%IH. exists e'. split; [| done].
      apply elem_of_app. by left.
    + intros [Hk | ->%list_elem_of_singleton]%elem_of_app.
      * destruct (IH Hk) as (e' & ? & ?). exists e'. split; [| done].
        apply elem_of_app. by left.
      * exists e. split; [| done].
        apply elem_of_app. right. by apply list_elem_of_singleton.
Qed.

(** ... a group holds the amounts of the documents of its key, in the
    order of the scan ... *)
Lemma gather_members_of (key : Doc.t A -> K) docs k :
  members_of k (Sum.gather key docs)
  = Doc.amount <$> filter (fun e => key e = k) docs.
Proof.
  induction docs as [|e docs IH] using rev_ind; [done |].
  rewrite gather_snoc, gather_accumulate_members, IH, filter_app, fmap_app.
  rewrite filter_cons, filter_nil. by case_decide.
Qed.

Lemma members_of_NoDup gs g :
  NoDup gs.*1 -> g ∈ gs -> members_of g.1 gs = g.2.
Proof.
  induction gs as [|g' gs IH]; cbn; [by intros _ ?%elem_of_nil |].
  intros [Hnin Hnd]%NoDup_cons [-> | Hin]%elem_of_cons.
  - by rewrite decide_True.
  - rewrite decide_False; [by apply IH |].
    intros Heq. apply Hnin. rewrite Heq. by apply list_elem_of_fmap_2.
Qed.

Lemma gather_members (key : Doc.t A -> K) docs g :
  g ∈ Sum.gather key docs ->
  g.2 = Doc.amount <$> filter (fun e => key e = g.1) docs.
Proof.
  intros Hg. rewrite <- gather_members_of. symmetry.
  apply members_of_NoDup; [apply gather_NoDup | done].
Qed.

(** ... and the groups together hold the amount of every document once. *)
Lemma gather_concat (key : Doc.t A -> K) docs :
  concat (Sum.gather key docs).*2 ≡ₚ Doc.amount <$> docs.
Proof.
  induction docs as [|e docs IH] using rev_ind; [done |].
  by rewrite gather_snoc, gather_accumulate_concat, IH, fmap_app.
Qed.

End gather.

(** The [$group] stage of the handlers is the stage above at whole
    numbers, added exactly from 0. *)
Lemma accumulate_exact {K} `{EqDecision K} (k : K) (a : Z) (gs : list (K * list Z)) :
  Mongo.accumulate k a ((fun g => Mongo.mkGroup g.1 (foldl Z.add 0 g.2)) <$> gs)
  = (fun g => Mongo.mkGroup g.1 (foldl Z.add 0 g.2)) <$> Sum.accumulate k a gs.
Proof.
  induction gs as [|g gs IH]; [done |].
  cbn. destruct (decide (g.1 = k)); cbn.
  - by rewrite foldl_app.
  - by rewrite IH.
Qed.

Lemma group_stage_exact {K} `{EqDecision K} (key : Expense -> K)
    (key' : Doc.t Z -> K) (docs : list Expense) :
  (forall e, key' (as_doc e) = key e) ->
  Mongo.group_stage key docs
  = (fun g => Mongo.mkGroup g.1 (foldl Z.add 0 g.2))
      <$> Sum.gather key' (as_doc <$> docs).
Proof.
  intros Hkey. induction docs as [|e docs IH] using rev_ind; [done |].
  rewrite group_stage_snoc, fmap_app. change (as_doc <$> [e]) with [as_doc e].
  rewrite gather_snoc, IH, Hkey. apply accumulate_exact.
Qed.


Lemma monthly_pipeline_groups {A} (sum : list A -> A) owner (docs : list (Doc.t A)) :
  Sum.monthly_pipeline sum owner docs
  ≡ₚ (fun g => Sum.mkGroup g.1 (sum g.2))
       <$> Sum.gather Sum.year_month (owned owner docs).
Proof. unfold Sum.monthly_pipeline. apply merge_sort_Permutation. Qed.

(** C1, as stated, fails.  The first user has 0.1 in January 2024 and 0.2
    and 0.3 in February; every [$sum] is exact (0.2 + 0.3 is 0.5), and the
    buckets are 0.1 and 0.5.  Added up in doubles, the totals give 0.6 and
    the three amounts give the next double above it.  With 0.1 three times
    in one month, the total of the one bucket is not the exact sum of the
    three amounts either. *)
Lemma monthly_totals_miss_sum_of_amounts :
  let docs := [double_expense alice (1 / 10) (Calendar.utc 2024 1 5);
               double_expense alice (2 / 10) (Calendar.utc 2024 2 1);
               double_expense alice (3 / 10) (Calendar.utc 2024 2 2)] in
  let buckets := Sum.monthlySummary Double.sum alice docs in
  let thrice := [double_expense alice (1 / 10) (Calendar.utc 2024 1 5);
                 double_expense alice (1 / 10) (Calendar.utc 2024 1 6);
                 double_expense alice (1 / 10) (Calendar.utc 2024 1 7)] in
  buckets = [Bucket.mk "2024-01" (1 / 10)%float; Bucket.mk "2024-02" (1 / 2)%float]
  /\ Double.sum (Bucket.total <$> buckets) = 0x1.3333333333333p-1%float
  /\ Double.sum (Doc.amount <$> owned alice docs) = 0x1.3333333333334p-1%float
  /\ PrimFloat.eqb (Double.sum (Bucket.total <$> buckets))
       (Double.sum (Doc.amount <$> owned alice docs)) = false
  /\ (sumZ (Double.scaled <$> (Bucket.total <$> Sum.monthlySummary Double.sum alice thrice))
      =? sumZ (Double.scaled <$> (Doc.amount <$> owned alice thrice))) = false.
Proof. vm_compute. split_and!; reflexivity. Qed.

(** C1, amended.  Whatever the arithmetic of the amounts and of [$sum]:
    the month groups have one key each; every expense of the owner has its
    year and month among them; the total of a group is the [$sum] of the
    amounts of the owner's expenses of that year and month, in the order
    of the scan, of which there is at least one; and, for every way [val]
    of reading an amount as an integer, a number of cents say, where the
    total of every group reads as the sum of what its amounts read as,
    which is so where no [$sum] is rounded, the totals of the buckets add
    up to the sum of the owner's amounts. *)
Theorem monthly_buckets_partition_owned_amounts {A} (sum : list A -> A) owner
    (docs : list (Doc.t A)) :
  let monthlyData := Sum.monthly_pipeline sum owner docs in
  NoDup (Sum._id <$> monthlyData)
  /\ (forall e, e ∈ owned owner docs -> Sum.year_month e ∈ Sum._id <$> monthlyData)
  /\ (forall item, item ∈ monthlyData ->
        month_amounts owner (Sum._id item) docs <> []
        /\ Sum.total item = sum (month_amounts owner (Sum._id item) docs))
  /\ (forall val : A -> Z,
        (forall item, item ∈ monthlyData ->
           val (Sum.total item)
           = sumZ (val <$> month_amounts owner (Sum._id item) docs)) ->
        sumZ (val <$> (Bucket.total <$> Sum.monthlySummary sum owner docs))
        = sumZ (val <$> (Doc.amount <$> owned owner docs))).
Proof.
  intros monthlyData.
  pose proof (monthly_pipeline_groups sum owner docs) as Hp.
  fold monthlyData in Hp.
  set (gs := Sum.gather Sum.year_month (owned owner docs)) in *.
  assert (Sum._id <$> monthlyData ≡ₚ gs.*1) as Hids.
  { rewrite Hp, <- list_fmap_compose. done. }
  assert (forall item, item ∈ monthlyData ->
            exists g, g ∈ gs /\ Sum._id item = g.1 /\ Sum.total item = sum g.2
                      /\ month_amounts owner (Sum._id item) docs = g.2) as Hitems.
  { intros item Hin. rewrite Hp in Hin.
    apply list_elem_of_fmap in Hin as (g & -> & Hg). exists g.
    split_and!; [done | done | done |].
    unfold month_amounts. symmetry. by apply gather_members. }
  split_and!.
  - rewrite Hids. apply gather_NoDup.
  - intros e He. rewrite Hids. by apply gather_key_in.
  - intros item Hin. destruct (Hitems item Hin) as (g & Hg & Hk & Ht & Hm).
    split; [| by rewrite Hm].
    assert (g.1 ∈ gs.*1) as (e & He & Hke)%gather_key
      by (by apply list_elem_of_fmap_2).
    unfold month_amounts. rewrite Hk. intros Hnil.
    apply fmap_nil_inv in Hnil.
    assert (e ∈ filter (fun e => Sum.year_month e = g.1) (owned owner docs)) as Hin'
      by (by apply list_elem_of_filter).
    rewrite Hnil in Hin'. by apply elem_of_nil in Hin'.
  - intros val Hexact. unfold Sum.monthlySummary.
    rewrite <- !list_fmap_compose.
    change (val ∘ (Bucket.total ∘ Sum.format_month))
      with (val ∘ @Sum.total Mongo.YearMonth A).
    rewrite (sumZ_fmap_ext _
               (fun item => sumZ (val <$> month_amounts owner (Sum._id item) docs)))
      by (intros item Hin; by apply Hexact).
    fold monthlyData.
    rewrite (sumZ_Permutation _ _ (fmap_Permutation _ _ _ Hp)).
    rewrite <- list_fmap_compose.
    rewrite (sumZ_fmap_ext _ (fun g => sumZ (val <$> g.2))).
    2:{ intros g Hg. cbn. unfold month_amounts. by rewrite <- gather_members. }
    change (fun g : Mongo.YearMonth * list A => sumZ (val <$> g.2))
      with ((fun l => sumZ (val <$> l)) ∘ @snd Mongo.YearMonth (list A)).
    rewrite (list_fmap_compose snd), sumZ_concat, list_fmap_compose.
    apply sumZ_Permutation, fmap_Permutation, gather_concat.
Qed.

(** C1 amended, at doubles: 0.1 in January 2024, 0.2 and 0.3 in February,
    where no [$sum] is rounded.  The totals 0.1 and 0.5 add up, as exact
    values, to the sum of the three amounts. *)
Lemma monthly_buckets_partition_witness :
  let docs := [double_expense alice (1 / 10) (Calendar.utc 2024 1 5);
               double_expense alice (2 / 10) (Calendar.utc 2024 2 1);
               double_expense alice (3 / 10) (Calendar.utc 2024 2 2)] in
  sumZ (Double.scaled <$> (Bucket.total <$> Sum.monthlySummary Double.sum alice docs))
  = sumZ (Double.scaled <$> (Doc.amount <$> owned alice docs)).
Proof.
  intros docs.
  apply (proj2 (proj2 (proj2
           (monthly_buckets_partition_owned_amounts Double.sum alice docs)))
           Double.scaled).
  apply Forall_forall, (bool_decide_unpack _). vm_compute. exact I.
Defined.



(** ** Month labels *)

Lemma forallb_seqZ (P : Z -> bool) lo n :
  forallb P (seqZ lo n) = true -> forall z, lo <= z < lo + n -> P z = true.
Proof.
  intros H z Hz. rewrite forallb_forall in H. apply H.
  apply list_elem_of_In, elem_of_seqZ. lia.
Qed.

Lemma four_digits_in_range y : 1000 <= y <= 9999 -> four_digits y = true.
Proof.
  intros Hy. apply (forallb_seqZ four_digits 1000 9000); [| lia].
  vm_compute. reflexivity.
Qed.

Lemma two_digits_in_range m : 1 <= m <= 12 -> two_digits m = true.
Proof.
  intros Hm. apply (forallb_seqZ two_digits 1 12); [| lia].
  vm_compute. reflexivity.
Qed.

Lemma is_digit_not_hyphen c : JS.is_digit c = true -> c <> "-"%char.
Proof. intros H ->. discriminate H. Qed.

Lemma parseInt_digit c s :
  JS.is_digit c = true ->
  JS.parseInt (Some (String c s)) = JS.digits_prefix None (String c s).
Proof.
  intros H. unfold JS.parseInt.
  destruct c as [[] [] [] [] [] [] [] []]; try reflexivity; discriminate H.
Qed.

(** The shape of the label of a month with a four-digit year. *)
Lemma month_label_shape k :
  1000 <= Mongo.year k <= 9999 -> 1 <= Mongo.month k <= 12 ->
  exists a b c d e f,
    month_label k
    = String a (String b (String c (String d (String "-"
        (String e (String f EmptyString))))))
    /\ Forall (fun x => JS.is_digit x = true) [a; b; c; d; e; f]
    /\ 1000 * JS.digit_value a + 100 * JS.digit_value b
       + 10 * JS.digit_value c + JS.digit_value d = Mongo.year k
    /\ 10 * JS.digit_value e + JS.digit_value f = Mongo.month k.
Proof.
  intros Hy Hm. unfold month_label.
  pose proof (four_digits_in_range _ Hy) as H4.
  pose proof (two_digits_in_range _ Hm) as H2.
  unfold four_digits in H4. unfold two_digits in H2.
  destruct (JS.Number_toString (Mongo.year k))
    as [|a [|b [|c [|d [|]]]]]; try discriminate H4.
  destruct (JS.padStart 2 "0" (JS.Number_toString (Mongo.month k)))
    as [|e [|f [|]]]; try discriminate H2.
  rewrite !andb_true_iff in H4. destruct H4 as ((((Ha & Hb) & Hc) & Hd) & Hv).
  rewrite !andb_true_iff in H2. destruct H2 as ((He & Hf) & Hw).
  exists a, b, c, d, e, f. split_and!; [reflexivity | | lia | lia].
  repeat constructor; assumption.
Qed.

(** Such a label passes the test of the daily handler, which reads the
    year and the month back from it. *)
Lemma month_label_reads_back k :
  1000 <= Mongo.year k <= 9999 -> 1 <= Mongo.month k <= 12 ->
  JS.month_pattern_test (month_label k) = true
  /\ JS.parseInt (JS.split "-" (month_label k) !! 0%nat) = Some (Mongo.year k)
  /\ JS.parseInt (JS.split "-" (month_label k) !! 1%nat) = Some (Mongo.month k).
Proof.
  intros Hy Hm.
  destruct (month_label_shape k Hy Hm) as (a & b & c & d & e & f & -> & Hd & Hyv & Hmv).
  repeat (apply Forall_cons in Hd as [? Hd]).
  pose proof (is_digit_not_hyphen a). pose proof (is_digit_not_hyphen b).
  pose proof (is_digit_not_hyphen c). pose proof (is_digit_not_hyphen d).
  pose proof (is_digit_not_hyphen e). pose proof (is_digit_not_hyphen f).
  split_and!.
  - cbn. repeat match goal with H : JS.is_digit _ = true |- _ => rewrite H; clear H end.
    reflexivity.
  - unfold JS.split.
    repeat first
      [ rewrite bool_decide_eq_false_2 by auto
      | rewrite bool_decide_eq_true_2 by reflexivity
      | progress cbn [JS.split_from lookup list_lookup String.rev String.rev_app] ].
    rewrite parseInt_digit by assumption. cbn [JS.digits_prefix].
    repeat match goal with H : JS.is_digit _ = true |- _ => rewrite H; clear H end.
    cbn [from_option id]. f_equal. lia.
  - unfold JS.split.
    repeat first
      [ rewrite bool_decide_eq_false_2 by auto
      | rewrite bool_decide_eq_true_2 by reflexivity
      | progress cbn [JS.split_from lookup list_lookup String.rev String.rev_app] ].
    rewrite parseInt_digit by assumption. cbn [JS.digits_prefix].
    repeat match goal with H : JS.is_digit _ = true |- _ => rewrite H; clear H end.
    cbn [from_option id]. f_equal. lia.
Qed.

(** ** Daily summary *)

Lemma get_summary_daily_invalid req uid w :
  month_invalid (Req.query_month req) = true ->
  get_summary_daily req uid w
  = (Returned {| status := 400;
                 json := Message "A valid month query (YYYY-MM) is required" |}, w).
Proof. intros H. unfold get_summary_daily. rewrite H. reflexivity. Qed.

Lemma get_summary_daily_valid req uid w month :
  Req.query_month req = Some month ->
  JS.month_pattern_test month = true ->
  get_summary_daily req uid w
  = (Returned {| status := 200;
                 json := DailyData month
                   (format_day <$>
                    Mongo.daily_pipeline uid
                      (JS.parseInt (JS.split "-" month !! 0%nat))
                      (JS.parseInt (JS.split "-" month !! 1%nat))
                      (documents (db w))) |},
     {| db := db w; log := log w ++ [ExpenseAggregate] |}).
Proof.
  intros Hq Ht. unfold get_summary_daily. rewrite Hq.
  assert (month_invalid (Some month) = false) as ->.
  { unfold month_invalid. rewrite Ht. cbn.
    destruct month; [discriminate Ht | reflexivity]. }
  reflexivity.
Qed.

Lemma filter_none {A} (P : A -> Prop) `{!forall x, Decision (P x)} (l : list A) :
  (forall x, ~ P x) -> filter P l = [].
Proof.
  intros Hn. induction l as [|x l IH]; [done |].
  rewrite filter_cons, decide_False; auto.
Qed.

(** C3. For every month string that does not match four digits, hyphen,
    two digits, the daily summary answers 400 to the caller, leaves the
    collections as they were and makes no access to the expense
    collection. *)
Theorem daily_summary_rejects_malformed_month env req d owner month :
  caller env req d = Some owner ->
  Req.query_month req = Some month ->
  JS.month_pattern_test month = false ->
  exists w,
    run (route_summary_daily env req) d
    = (Returned {| status := 400;
                   json := Message "A valid month query (YYYY-MM) is required" |}, w)
    /\ db w = d
    /\ Forall (fun op => on_expenses op = false) (log w).
Proof.
  intros Hc Hq Ht. unfold route_summary_daily.
  rewrite (protect_caller _ _ _ _ _ Hc).
  rewrite get_summary_daily_invalid.
  - eexists. split_and!; [reflexivity | done | by repeat constructor].
  - rewrite Hq. unfold month_invalid. rewrite Ht. apply orb_true_r.
Qed.

(** C3, at the month string ["2024-1"]. *)
Lemma daily_rejects_malformed_witness :
  exists w,
    run (route_summary_daily sample_env
           (alice_request "" (Some "2024-1"%string) no_body)) sample_db
    = (Returned {| status := 400;
                   json := Message "A valid month query (YYYY-MM) is required" |}, w)
    /\ db w = sample_db
    /\ Forall (fun op => on_expenses op = false) (log w).
Proof.
  apply (daily_summary_rejects_malformed_month sample_env
           (alice_request "" (Some "2024-1"%string) no_body) sample_db alice "2024-1");
    reflexivity.
Defined.

(** C10. For every month string that matches the pattern and whose month
    number lies outside 1..12, the daily summary passes validation, runs
    its aggregation on the expense collection and answers 200 with the
    month echoed and no day. *)
Theorem daily_summary_month_out_of_range env req d owner month mn :
  caller env req d = Some owner ->
  Req.query_month req = Some month ->
  JS.month_pattern_test month = true ->
  month_number month = Some mn ->
  mn < 1 \/ 12 < mn ->
  exists w,
    run (route_summary_daily env req) d
    = (Returned {| status := 200; json := DailyData month [] |}, w)
    /\ db w = d
    /\ ExpenseAggregate ∈ log w.
Proof.
  intros Hc Hq Ht Hn Hout. unfold route_summary_daily.
  rewrite (protect_caller _ _ _ _ _ Hc).
  rewrite (get_summary_daily_valid _ _ _ month Hq Ht). cbn [db log].
  unfold month_number in Hn. rewrite Hn.
  unfold Mongo.daily_pipeline. rewrite filter_none.
  - eexists. split_and!; [reflexivity | done |].
    apply elem_of_app. right. apply list_elem_of_here.
  - intros e (_ & _ & Hm). injection Hm as Hm.
    pose proof (month_of_range (date e)). lia.
Qed.

(** C10, at the month string ["2024-13"]. *)
Lemma daily_month_out_of_range_witness :
  exists w,
    run (route_summary_daily sample_env
           (alice_request "" (Some "2024-13"%string) no_body)) sample_db
    = (Returned {| status := 200; json := DailyData "2024-13" [] |}, w)
    /\ db w = sample_db
    /\ ExpenseAggregate ∈ log w.
Proof.
  apply (daily_summary_month_out_of_range sample_env
           (alice_request "" (Some "2024-13"%string) no_body) sample_db alice
           "2024-13" 13); [reflexivity | reflexivity | reflexivity | reflexivity | lia].
Defined.

(** The scenario of the specification: the daily summary of January. *)
Example scenario_daily :
  (run (route_summary_daily sample_env (alice_request "" (Some "2024-01"%string) no_body))
     sample_db).1
  = Returned {| status := 200;
                json := DailyData "2024-01" [DailyBucket.mk 5 100;
                                             DailyBucket.mk 20 50] |}.
Proof. vm_compute. reflexivity. Qed.

(** ** The two summaries against each other *)

Lemma monthly_pipeline_elem owner docs item :
  item ∈ Mongo.monthly_pipeline owner docs ->
  item ∈ Mongo.group_stage Mongo.year_month (owned_by owner docs).
Proof.
  unfold Mongo.monthly_pipeline, owned_by. by rewrite merge_sort_Permutation.
Qed.

(** A month group carries the year and month of an expense of the
    owner. *)
Lemma monthly_pipeline_item owner docs item :
  item ∈ Mongo.monthly_pipeline owner docs ->
  exists e, e ∈ owned_by owner docs /\ Mongo.year_month e = Mongo._id item.
Proof.
  intros Hin%monthly_pipeline_elem.
  apply group_stage_key. by apply list_elem_of_fmap_2.
Qed.

Lemma year_month_eq e k :
  Mongo.year_month e = k
  <-> Calendar.year_of (date e) = Mongo.year k
      /\ Calendar.month_of (date e) = Mongo.month k.
Proof.
  destruct k as [y m]. unfold Mongo.year_month. cbn. split.
  - intros [= -> ->]. done.
  - intros [-> ->]. done.
Qed.

(** The days of the daily pipeline are the days of the month of the
    documents it matches. *)
Lemma daily_pipeline_days owner yr monthNum docs day :
  day ∈ Mongo._id <$> Mongo.daily_pipeline owner yr monthNum docs
  <-> exists e, e ∈ docs /\ user e = owner
                /\ Some (Calendar.year_of (date e)) = yr
                /\ Some (Calendar.month_of (date e)) = monthNum
                /\ Calendar.day_of (date e) = day.
Proof.
  unfold Mongo.daily_pipeline. rewrite merge_sort_Permutation. split.
  - intros (e & He & Hd)%group_stage_key.
    apply list_elem_of_filter in He as [(? & ? & ?) ?]. by exists e.
  - intros (e & He & Hu & Hy & Hm & <-).
    apply (group_stage_key_in (fun e => Calendar.day_of (date e))).
    apply list_elem_of_filter. done.
Qed.

(** X1. The label of a bucket of the monthly summary whose year has four
    digits is a month the daily summary accepts: it is answered 200, it
    names at least one day, and its days are exactly the days of the month
    on which the caller has an expense of the year and month of the
    bucket. *)
Theorem daily_summary_of_monthly_label env req d owner item :
  caller env req d = Some owner ->
  item ∈ Mongo.monthly_pipeline owner (documents d) ->
  1000 <= Mongo.year (Mongo._id item) <= 9999 ->
  Req.query_month req = Some (MonthlyBucket.label (format_month item)) ->
  exists days w,
    run (route_summary_daily env req) d
    = (Returned {| status := 200;
                   json := DailyData (MonthlyBucket.label (format_month item)) days |}, w)
    /\ days <> []
    /\ forall day,
         day ∈ DailyBucket.day <$> days
         <-> exists e, e ∈ owned_by owner (documents d)
                       /\ Mongo.year_month e = Mongo._id item
                       /\ Calendar.day_of (date e) = day.
Proof.
  intros Hc Hitem Hyr Hq.
  destruct (monthly_pipeline_item _ _ _ Hitem) as (e & He & Hk).
  pose proof Hk as [Hy Hm]%year_month_eq.
  assert (Hmr : 1 <= Mongo.month (Mongo._id item) <= 12)
    by (rewrite <- Hm; apply month_of_range).
  destruct (month_label_reads_back _ Hyr Hmr) as (Ht & Hpy & Hpm).
  cbn [format_month MonthlyBucket.label] in *.
  unfold route_summary_daily.
  rewrite (protect_caller _ _ _ _ _ Hc).
  rewrite (get_summary_daily_valid _ _ _ _ Hq Ht). cbn [db log].
  eexists _, _. split; [reflexivity |].
  rewrite Hpy, Hpm, <- list_fmap_compose.
  change (DailyBucket.day ∘ format_day) with (@Mongo._id Z).
  assert (forall day,
            day ∈ Mongo._id <$>
                  Mongo.daily_pipeline owner (Some (Mongo.year (Mongo._id item)))
                    (Some (Mongo.month (Mongo._id item))) (documents d)
            <-> exists e, e ∈ owned_by owner (documents d)
                          /\ Mongo.year_month e = Mongo._id item
                          /\ Calendar.day_of (date e) = day) as Hdays.
  { intros day. rewrite daily_pipeline_days. unfold owned_by.
    split.
    - intros (x & Hx & Hu & [= Hxy] & [= Hxm] & Hd). exists x.
      split_and!; [by apply list_elem_of_filter | by apply year_month_eq | done].
    - intros (x & [Hu Hx]%list_elem_of_filter & [Hxy Hxm]%year_month_eq & Hd).
      exists x. split_and!; [done | done | by f_equal | by f_equal | done]. }
  split; [| exact Hdays].
  intros Hnil.
  assert (Calendar.day_of (date e) ∈ @nil Z) as Hin; [| by apply elem_of_nil in Hin].
  apply fmap_nil_inv in Hnil.
  rewrite <- (fmap_nil Mongo._id), <- Hnil. apply Hdays. by exists e.
Qed.

(** X1, at the January of the sample data. *)
Lemma daily_summary_of_monthly_label_witness :
  exists days w,
    run (route_summary_daily sample_env
           (alice_request "" (Some "2024-01"%string) no_body)) sample_db
    = (Returned {| status := 200; json := DailyData "2024-01" days |}, w)
    /\ days <> []
    /\ forall day,
         day ∈ DailyBucket.day <$> days
         <-> exists e, e ∈ owned_by alice (documents sample_db)
                       /\ Mongo.year_month e = Mongo.mkYearMonth 2024 1
                       /\ Calendar.day_of (date e) = day.
Proof.
  apply (daily_summary_of_monthly_label sample_env
           (alice_request "" (Some "2024-01"%string) no_body) sample_db alice
           (Mongo.mkGroup (Mongo.mkYearMonth 2024 1) 150)).
  - reflexivity.
  - vm_compute. apply list_elem_of_here.
  - cbn. lia.
  - reflexivity.
Defined.

(** ** Income *)

(** C7. A value that is not a non-negative number is answered 400 and the
    collections stay as they were; a non-negative number overwrites the
    stored [monthlyIncome] of the caller, and of the caller alone, and is
    returned. *)
Theorem set_income_validates_then_overwrites env req d owner :
  caller env req d = Some owner ->
  ((forall n, Req.income (Req.req_body req) = JNumber n -> n < 0) ->
   exists w,
     run (route_user_income env req) d
     = (Returned {| status := 400; json := Message "Invalid income amount" |}, w)
     /\ db w = d)
  /\ (forall n, Req.income (Req.req_body req) = JNumber n -> 0 <= n ->
      exists u w,
        users d !! owner = Some u
        /\ run (route_user_income env req) d
           = (Returned {| status := 200; json := IncomeData n |}, w)
        /\ users (db w)
           = <[owner := {| name := name u; email := email u;
                           password := password u; monthlyIncome := n |}]> (users d)
        /\ expenses (db w) = expenses d).
Proof.
  intros Hc. unfold route_user_income.
  rewrite (protect_caller _ _ _ _ _ Hc). unfold post_user_income.
  set (value := Req.income (Req.req_body req)).
  split.
  - intros Hbad. assert (income_invalid value = true) as ->.
    { destruct value as [| | |n| |?]; try reflexivity.
      apply Z.ltb_lt, Hbad. reflexivity. }
    eexists. split; reflexivity.
  - intros n Hv Hn. rewrite Hv. cbn [income_invalid number_value].
    assert ((n <? 0) = false) as -> by (apply Z.ltb_ge; lia).
    assert (exists u, users d !! owner = Some u) as [u Hu].
    { unfold caller in Hc.
      destruct (Req.authorization req) as [h|]; [| done]. cbn in Hc.
      destruct (JS.startsWith "Bearer" h); [| done].
      destruct (jwt_verify env _) as [id|]; [| done]. cbn in Hc.
      destruct (Mongo.castObjectId id) as [uid|]; [| done]. cbn in Hc.
      destruct (users d !! uid) as [u|] eqn:Hu; [| done].
      injection Hc as <-. eauto. }
    exists u. unfold User_findById, User_save. unfold_monad. cbn.
    rewrite Hu. cbn. rewrite Hu. cbn.
    eexists. split_and!; reflexivity.
Qed.

(** C7, at the values -5 and 1200: the scenario [setIncome(owner, -5)]. *)
Lemma set_income_witness :
  let req v := alice_request "" None
                 (Req.mkBody JUndefined JUndefined JUndefined JUndefined v) in
  (exists w,
     run (route_user_income sample_env (req (JNumber (-5)))) sample_db
     = (Returned {| status := 400; json := Message "Invalid income amount" |}, w)
     /\ db w = sample_db)
  /\ (exists u w,
        users sample_db !! alice = Some u
        /\ run (route_user_income sample_env (req (JNumber 1200))) sample_db
           = (Returned {| status := 200; json := IncomeData 1200 |}, w)
        /\ users (db w)
           = <[alice := {| name := name u; email := email u;
                           password := password u; monthlyIncome := 1200 |}]>
               (users sample_db)
        /\ expenses (db w) = expenses sample_db).
Proof.
  intros req. split.
  - apply (proj1 (set_income_validates_then_overwrites sample_env
                    (req (JNumber (-5))) sample_db alice eq_refl)).
    intros n [= <-]. lia.
  - apply (proj2 (set_income_validates_then_overwrites sample_env
                    (req (JNumber 1200)) sample_db alice eq_refl) 1200);
      [reflexivity | lia].
Defined.

(** ** Deleting an expense *)

(** C8, as stated, fails: the id ["abc"] names no expense of the store,
    and the answer is 500, from the [catch] of the handler, with the
    collections as they were. *)
Lemma delete_malformed_id_is_500 :
  let req := alice_request "abc" None no_body in
  let '(out, w) := run (route_delete_expense sample_env req) sample_db in
  caller sample_env req sample_db = Some alice
  /\ Mongo.castObjectId (Req.params_id req) = None
  /\ out = Returned {| status := 500; json := Message "Server Error deleting expense" |}
  /\ db w = sample_db.
Proof. vm_compute. split_and!; reflexivity. Qed.

(** C8, amended. For every id that is 24 hexadecimal digits: when no
    expense has it the answer is 404; when its expense belongs to another
    user the answer is 401 and the collections stay as they were; when its
    expense belongs to the caller the answer is 200 and that expense, and
    nothing else, is gone. *)
Theorem delete_expense_by_well_formed_id env req d uid id :
  caller env req d = Some uid ->
  Mongo.castObjectId (Req.params_id req) = Some id ->
  exists res w,
    run (route_delete_expense env req) d = (Returned res, w)
    /\ match expenses d !! id with
       | None => status res = 404 /\ db w = d
       | Some e =>
           if decide (user e = uid)
           then status res = 200
                /\ expenses (db w) = delete id (expenses d)
                /\ users (db w) = users d
           else status res = 401 /\ db w = d
       end.
Proof.
  intros Hc Hid. unfold route_delete_expense.
  rewrite (protect_caller _ _ _ _ _ Hc).
  unfold delete_expense, Expense_findById, Expense_findByIdAndDelete.
  rewrite Hid. unfold_monad. cbn.
  destruct (expenses d !! id) as [e|] eqn:He; cbn.
  - destruct (decide (user e = uid)) as [Hu | Hu].
    + rewrite bool_decide_eq_false_2 by (intros Hne; by apply Hne).
      cbn. eexists _, _. split; [reflexivity |]. done.
    + rewrite bool_decide_eq_true_2 by done.
      cbn. eexists _, _. split; [reflexivity |]. done.
  - eexists _, _. split; [reflexivity |]. done.
Qed.

(** C8 amended, at an expense of the caller's own. *)
Lemma delete_expense_witness :
  exists res w,
    run (route_delete_expense sample_env
           (alice_request "000000000000000000000010" None no_body)) sample_db
    = (Returned res, w)
    /\ match expenses sample_db !! 16%N with
       | None => status res = 404 /\ db w = sample_db
       | Some e =>
           if decide (user e = alice)
           then status res = 200
                /\ expenses (db w) = delete 16%N (expenses sample_db)
                /\ users (db w) = users sample_db
           else status res = 401 /\ db w = sample_db
       end.
Proof.
  apply (delete_expense_by_well_formed_id sample_env
           (alice_request "000000000000000000000010" None no_body)
           sample_db alice 16%N); reflexivity.
Defined.

(** The scenario of the specification: the first user asks to delete an
    expense of the second; the answer is 401 and the record remains. *)
Example delete_not_owner :
  let '(out, w) :=
    run (route_delete_expense sample_env
           (alice_request "000000000000000000000013" None no_body)) sample_db in
  out = Returned {| status := 401; json := Message "User not authorized" |}
  /\ expenses (db w) !! 19%N = Some (expense bob 30 (Calendar.utc 2024 1 9)).
Proof. vm_compute. split; reflexivity. Qed.

(** ** Creating an expense *)

(** Whatever the create handler stores, it stores what the body said:
    the amount of the stored expense is the cast of the [amount] field. *)
Lemma post_expenses_stores_cast_amount env req uid d id e w :
  run (post_expenses env req uid) d
  = (Returned {| status := 201; json := ExpenseDoc id e |}, w) ->
  cast_amount env (Req.amount (Req.req_body req)) = Some (amount e)
  /\ expenses (db w) !! id = Some e.
Proof.
  unfold post_expenses, new_Expense, Expense_insert. unfold_monad. cbn.
  destruct (cast_title _) as [t|]; cbn; [| discriminate].
  destruct (cast_amount env _) as [a|]; cbn; [| discriminate].
  destruct (cast_category _) as [c|]; cbn; [| discriminate].
  destruct (if truthy _ then _ else _) as [t0|]; cbn; [| discriminate].
  destruct (expenses d !! new_ObjectId env) eqn:Hfree; cbn; [discriminate |].
  intros [= <- <- <-]. cbn. split; [reflexivity | apply lookup_insert_eq].
Qed.

(** C9 at a request with the amount -5: the handler answers 201 and the
    expense is in the collection with that amount. *)
Example post_expenses_negative_amount :
  let body := Req.mkBody (JString "refund") (JNumber (-5)) (JString "Other")
                JUndefined JUndefined in
  let '(out, w) :=
    run (route_post_expenses sample_env (alice_request "" None body)) sample_db in
  exists e,
    out = Returned {| status := 201; json := ExpenseDoc 255%N e |}
    /\ expenses (db w) !! 255%N = Some e
    /\ amount e = -5.
Proof. vm_compute. eexists. split_and!; reflexivity. Qed.

(** An expense dated in the year 99 is one the create handler accepts. *)
Example post_expenses_year_99 :
  let body := Req.mkBody (JString "item") (JNumber 7) (JString "Other")
                (JNumber (Calendar.utc 99 6 1)) JUndefined in
  let '(out, w) :=
    run (route_post_expenses sample_env (alice_request "" None body))
      {| users := sample_users; expenses := ∅ |} in
  out = Returned {| status := 201;
                    json := ExpenseDoc 255%N (expense alice 7 (Calendar.utc 99 6 1)) |}
  /\ Calendar.year_of (Calendar.utc 99 6 1) = 99.
Proof. vm_compute. split; reflexivity. Qed.

(** ** Labels and order of the monthly summary *)

#[local] Instance ym_le_total : Total Mongo.ym_le.
Proof. intros a b. unfold Mongo.ym_le. lia. Qed.

#[local] Instance ym_le_trans : Transitive Mongo.ym_le.
Proof. intros a b c. unfold Mongo.ym_le. lia. Qed.

Lemma StronglySorted_strict (l : list (Mongo.Group Mongo.YearMonth)) :
  NoDup (Mongo._id <$> l) -> StronglySorted Mongo.ym_le l -> StronglySorted ym_lt l.
Proof.
  induction 2 as [|a l Hs IH Hall]; [constructor |].
  rewrite fmap_cons in H. apply NoDup_cons in H as [Hnin Hnd].
  constructor; [by apply IH |].
  rewrite Forall_forall in Hall |- *. intros b Hb.
  pose proof (Hall b Hb) as Hle.
  assert (Mongo._id a <> Mongo._id b) as Hne.
  { intros Heq. apply Hnin. rewrite Heq. by apply list_elem_of_fmap_2. }
  unfold Mongo.ym_le in Hle. unfold ym_lt.
  destruct (Mongo._id a) as [ya ma], (Mongo._id b) as [yb mb]. cbn in *.
  destruct (decide (ma = mb)) as [-> |]; [| lia].
  destruct Hle as [? | [-> _]]; [lia | done].
Qed.

(** X2. The month groups come out strictly ascending by year, then month;
    the buckets are their images in that order, each labelled with the
    text of its year, a hyphen and its month on two digits; and the label
    of a year of four digits has the form the daily summary asks for. *)
Theorem monthly_summary_order_and_labels owner docs :
  let monthlyData := Mongo.monthly_pipeline owner docs in
  StronglySorted ym_lt monthlyData
  /\ (forall item, item ∈ monthlyData ->
        1 <= Mongo.month (Mongo._id item) <= 12
        /\ (1000 <= Mongo.year (Mongo._id item) <= 9999 ->
            JS.month_pattern_test (MonthlyBucket.label (format_month item)) = true)).
Proof.
  intros monthlyData. split.
  - apply StronglySorted_strict.
    + unfold monthlyData, Mongo.monthly_pipeline.
      rewrite merge_sort_Permutation. apply group_stage_NoDup.
    + apply StronglySorted_merge_sort; apply _.
  - intros item Hitem.
    destruct (monthly_pipeline_item _ _ _ Hitem) as (e & _ & Hk).
    apply year_month_eq in Hk as [_ Hm].
    assert (1 <= Mongo.month (Mongo._id item) <= 12) as Hmr
      by (rewrite <- Hm; apply month_of_range).
    split; [done |]. intros Hyr.
    apply (month_label_reads_back _ Hyr Hmr).
Qed.

(** C4 at an expense dated in the year 99: its bucket is labelled
    ["99-06"], with a year of two digits, which is not of the form the
    daily summary asks for. *)
Example monthly_label_of_year_99 :
  (run (route_summary_monthly sample_env (alice_request "" None no_body)) early_db).1
  = Returned {| status := 200; json := MonthlyData [MonthlyBucket.mk "99-06" 7] |}
  /\ JS.month_pattern_test "99-06" = false.
Proof. vm_compute. split; reflexivity. Qed.

(** C2 at the same store: the month label ["99-06"] of the monthly
    summary, given to the daily summary, is answered 400, with no day
    totals to set against the 7 of the bucket. *)
Example daily_of_monthly_label_of_year_99 :
  MonthlyBucket.mk "99-06" 7
    ∈ format_month <$> Mongo.monthly_pipeline alice (documents early_db)
  /\ (run (route_summary_daily sample_env
             (alice_request "" (Some "99-06"%string) no_body)) early_db).1
     = Returned {| status := 400;
                   json := Message "A valid month query (YYYY-MM) is required" |}.
Proof. split; [vm_compute; apply list_elem_of_here | vm_compute; reflexivity]. Qed.

(** ** The balance card *)


(** The callback of the memo adds up, one after the other from 0, the
    amounts of the expenses of the list dated in the local year and month
    of the instant it runs at. *)
Lemma currentMonthTotal_sum tz now l :
  Card.currentMonthTotal tz now l = Double.sum (Doc.amount <$> of_month tz now l).
Proof.
  unfold Card.currentMonthTotal, Double.sum, of_month. cbn zeta.
  rewrite foldl_fmap. f_equal.
  apply list_filter_iff. intros e.
  unfold Dashboard.getFullYear, Dashboard.getMonth. lia.
Qed.

(** C6 at a list of one expense of 100 dated 15 January 2024, in a
    browser whose local time is UTC: the component is mounted on
    31 January, the list arrives and is rendered, and the next render is on
    1 February, the list unchanged.  That render shows 100, where no
    expense of the list is dated in February and the callback, had it run,
    would have given 0. *)
Example card_total_stale_after_month_end :
  let utc0 := fun _ : Z => 0 in
  let january := Calendar.utc 2024 1 31 in
  let mounted := (Card.render utc0 january Card.initial).2 in
  let loaded :=
    Card.setExpenses [double_expense alice 100 (Calendar.utc 2024 1 15)] mounted in
  let shown := (Card.render utc0 january loaded).2 in
  let now := Calendar.utc 2024 2 1 in
  Card.expenses shown = Card.expenses loaded
  /\ Card.shown_total (Card.render utc0 january loaded).1 = 100%float
  /\ Card.shown_total (Card.render utc0 now shown).1 = 100%float
  /\ of_month utc0 now (Card.elems (Card.expenses shown)) = []
  /\ Card.currentMonthTotal utc0 now (Card.elems (Card.expenses shown)) = 0%float.
Proof. vm_compute. split_and!; reflexivity. Qed.

(** * Further properties *)

(** ** Listing the expenses *)

#[local] Instance date_ge_total : Total date_ge.
Proof. intros a b. unfold date_ge. lia. Qed.

#[local] Instance date_ge_trans : Transitive date_ge.
Proof. intros a b c. unfold date_ge. lia. Qed.

(** X4. The list route answers 200 with the expenses of the caller and no
    others, each once and under its [_id], later dates first, and leaves
    the collections as they were. *)
Theorem get_expenses_lists_owned_latest_first uid d :
  exists found,
    run (get_expenses uid) d
    = (Returned (mkReply 200 (Json found)), {| db := d; log := [] |})
    /\ NoDup found
    /\ (forall id e, (id, e) ∈ found <-> expenses d !! id = Some e /\ user e = uid)
    /\ StronglySorted date_ge found.
Proof.
  eexists. split; [reflexivity |]. split_and!.
  - rewrite merge_sort_Permutation. apply NoDup_filter, NoDup_map_to_list.
  - intros id e. rewrite merge_sort_Permutation, list_elem_of_filter.
    rewrite elem_of_map_to_list. cbn. tauto.
  - apply StronglySorted_merge_sort; apply _.
Qed.

(** ** Reading the income *)

Lemma get_user_income_run uid d :
  run (get_user_income uid) d
  = (Returned match users d !! uid with
              | Some u => {| status := 200; json := IncomeData (monthlyIncome u) |}
              | None => {| status := 404; json := Message "User not found" |}
              end,
     {| db := d; log := [UserFindById uid] |}).
Proof.
  unfold get_user_income, User_findById. unfold_monad. cbn.
  destruct (users d !! uid); reflexivity.
Qed.

(** X5. After the income route has stored a number for the caller, the
    read route answers 200 with that number; the read changes nothing. *)
Theorem income_set_then_get env req d owner n :
  caller env req d = Some owner ->
  Req.income (Req.req_body req) = JNumber n ->
  0 <= n ->
  let stored := (run (route_user_income env req) d).2 in
  exists w,
    run (get_user_income owner) (db stored)
    = (Returned {| status := 200; json := IncomeData n |}, w)
    /\ db w = db stored.
Proof.
  intros Hc Hv Hn stored. rewrite get_user_income_run.
  assert (exists u, users (db stored) !! owner = Some u /\ monthlyIncome u = n)
    as (u & -> & <-); [| eexists; split; reflexivity].
  subst stored. unfold route_user_income.
  rewrite (protect_caller _ _ _ _ _ Hc). unfold post_user_income.
  rewrite Hv. cbn [income_invalid number_value].
  assert ((n <? 0) = false) as -> by (apply Z.ltb_ge; lia).
  assert (exists u, users d !! owner = Some u) as [u Hu].
  { destruct (users d !! owner) as [u|] eqn:Hu; [eauto |].
    unfold caller in Hc.
    destruct (Req.authorization req) as [h|]; [| done]. cbn in Hc.
    destruct (JS.startsWith "Bearer" h); [| done].
    destruct (jwt_verify env _) as [id|]; [| done]. cbn in Hc.
    destruct (Mongo.castObjectId id) as [uid|]; [| done]. cbn in Hc.
    destruct (users d !! uid) as [u|] eqn:Hu'; [| done].
    injection Hc as <-. congruence. }
  unfold User_findById, User_save. unfold_monad. cbn.
  rewrite Hu. cbn. rewrite Hu. cbn.
  eexists. split; [apply lookup_insert_eq | reflexivity].
Qed.

(** X5, at the income 1200 for the first user. *)
Lemma income_set_then_get_witness :
  let req := alice_request "" None
               (Req.mkBody JUndefined JUndefined JUndefined JUndefined (JNumber 1200)) in
  let stored := (run (route_user_income sample_env req) sample_db).2 in
  exists w,
    run (get_user_income alice) (db stored)
    = (Returned {| status := 200; json := IncomeData 1200 |}, w)
    /\ db w = db stored.
Proof.
  apply (income_set_then_get sample_env
           (alice_request "" None
              (Req.mkBody JUndefined JUndefined JUndefined JUndefined (JNumber 1200)))
           sample_db alice 1200); [reflexivity | reflexivity | lia].
Defined.

(** ** What a create changes *)

Lemma post_expenses_cases env req uid d :
  exists res w,
    run (post_expenses env req uid) d = (Returned res, w)
    /\ ((exists e,
           res = {| status := 201; json := ExpenseDoc (new_ObjectId env) e |}
           /\ user e = uid
           /\ expenses d !! new_ObjectId env = None
           /\ expenses (db w) = <[new_ObjectId env := e]> (expenses d)
           /\ users (db w) = users d)
        \/ (res = {| status := 500; json := Message "Server Error creating expense" |}
            /\ db w = d)).
Proof.
  unfold post_expenses, new_Expense, Expense_insert. unfold_monad. cbn.
  destruct (cast_title _) as [t|]; cbn;
    [| by eexists _, _; split; [reflexivity | right]].
  destruct (cast_amount env _) as [a|]; cbn;
    [| by eexists _, _; split; [reflexivity | right]].
  destruct (cast_category _) as [c|]; cbn;
    [| by eexists _, _; split; [reflexivity | right]].
  destruct (if truthy _ then _ else _) as [t0|]; cbn;
    [| by eexists _, _; split; [reflexivity | right]].
  destruct (expenses d !! new_ObjectId env) eqn:Hfree; cbn;
    [by eexists _, _; split; [reflexivity | right] |].
  eexists _, _. split; [reflexivity |]. left. eexists. split_and!; reflexivity.
Qed.

(** X6. The create handler either answers 201, having added one expense,
    owned by the caller, under an [_id] that was free, with everything
    else as it was; or it answers 500 and changes nothing. *)
Theorem post_expenses_adds_one_or_nothing env req uid d :
  exists res w,
    run (post_expenses env req uid) d = (Returned res, w)
    /\ ((exists e,
           res = {| status := 201; json := ExpenseDoc (new_ObjectId env) e |}
           /\ user e = uid
           /\ expenses d !! new_ObjectId env = None
           /\ expenses (db w) = <[new_ObjectId env := e]> (expenses d)
           /\ users (db w) = users d)
        \/ (res = {| status := 500; json := Message "Server Error creating expense" |}
            /\ db w = d)).
Proof. apply post_expenses_cases. Qed.

(** X7. Once the create handler has answered 201 with an expense, the
    list route shows that expense to the caller under its [_id], and the
    caller's monthly summary has a bucket with the label of the year and
    month of its date. *)
Theorem create_then_listed env req uid d id e w :
  run (post_expenses env req uid) d
  = (Returned {| status := 201; json := ExpenseDoc id e |}, w) ->
  (exists found w',
     run (get_expenses uid) (db w) = (Returned (mkReply 200 (Json found)), w')
     /\ (id, e) ∈ found)
  /\ month_label (Mongo.year_month e)
     ∈ MonthlyBucket.label <$>
         (format_month <$> Mongo.monthly_pipeline uid (documents (db w))).
Proof.
  intros Hrun.
  destruct (post_expenses_cases env req uid d) as (res & w' & Hrun' & Hcase).
  rewrite Hrun in Hrun'. injection Hrun' as <- <-.
  destruct Hcase as [(e' & [= -> <-] & Hu & Hfree & He & Hus) | [[=] _]].
  assert (expenses (db w) !! new_ObjectId env = Some e) as Hin
    by (rewrite He; apply lookup_insert_eq).
  split.
  - eexists _, _. split; [reflexivity |].
    rewrite merge_sort_Permutation. apply list_elem_of_filter.
    split; [done | by apply elem_of_map_to_list].
  - rewrite <- list_fmap_compose.
    change (MonthlyBucket.label ∘ format_month)
      with (month_label ∘ @Mongo._id Mongo.YearMonth).
    rewrite list_fmap_compose. apply list_elem_of_fmap_2.
    unfold Mongo.monthly_pipeline. rewrite merge_sort_Permutation.
    apply (group_stage_key_in Mongo.year_month).
    apply list_elem_of_filter. split; [done |].
    unfold documents. apply list_elem_of_fmap. exists (new_ObjectId env, e).
    split; [done | by apply elem_of_map_to_list].
Qed.

(** X7, at an expense of 40 created by the first user on 1 March 2024. *)
Lemma create_then_listed_witness :
  let body := Req.mkBody (JString "lunch") (JNumber 40) (JString "Food")
                JUndefined JUndefined in
  let e := Build_Expense alice "lunch" 40 Food (Date_now sample_env) in
  let w := (run (post_expenses sample_env (alice_request "" None body) alice)
              sample_db).2 in
  (exists found w',
     run (get_expenses alice) (db w) = (Returned (mkReply 200 (Json found)), w')
     /\ (255%N, e) ∈ found)
  /\ month_label (Mongo.year_month e)
     ∈ MonthlyBucket.label <$>
         (format_month <$> Mongo.monthly_pipeline alice (documents (db w))).
Proof.
  apply (create_then_listed sample_env
           (alice_request "" None
              (Req.mkBody (JString "lunch") (JNumber 40) (JString "Food")
                 JUndefined JUndefined))
           alice sample_db 255%N
           (Build_Expense alice "lunch" 40 Food (Date_now sample_env))).
  reflexivity.
Defined.

(** ** What a delete changes *)

Lemma delete_expense_own_run req uid d id e :
  Mongo.castObjectId (Req.params_id req) = Some id ->
  expenses d !! id = Some e ->
  user e = uid ->
  run (delete_expense req uid) d
  = (Returned {| status := 200; json := Message "Expense removed successfully" |},
     {| db := {| users := users d; expenses := delete id (expenses d) |};
        log := [ExpenseFindById id; ExpenseFindByIdAndDelete id] |}).
Proof.
  intros Hid He Hu. unfold delete_expense, Expense_findById, Expense_findByIdAndDelete.
  rewrite Hid. unfold_monad. cbn. rewrite He. cbn.
  rewrite bool_decide_eq_false_2 by (intros Hne; by apply Hne). reflexivity.
Qed.

(** X8. After the caller has deleted an expense of their own, the list
    route no longer shows an expense under that [_id], and a second delete
    of the same id is answered 404 and changes nothing. *)
Theorem delete_then_gone req uid d id e :
  Mongo.castObjectId (Req.params_id req) = Some id ->
  expenses d !! id = Some e ->
  user e = uid ->
  let d' := db (run (delete_expense req uid) d).2 in
  (exists found w,
     run (get_expenses uid) d' = (Returned (mkReply 200 (Json found)), w)
     /\ forall e', (id, e') ∉ found)
  /\ exists w,
       run (delete_expense req uid) d'
       = (Returned {| status := 404; json := Message "Expense not found" |}, w)
       /\ db w = d'.
Proof.
  intros Hid He Hu d'. subst d'.
  rewrite (delete_expense_own_run _ _ _ _ _ Hid He Hu). cbn [snd db].
  split.
  - eexists _, _. split; [reflexivity |].
    intros e'. rewrite merge_sort_Permutation, list_elem_of_filter.
    rewrite elem_of_map_to_list. cbn. rewrite lookup_delete_eq. by intros [_ ?].
  - unfold delete_expense, Expense_findById. rewrite Hid. unfold_monad. cbn.
    rewrite lookup_delete_eq. cbn. eexists. split; reflexivity.
Qed.

(** X8, at the first expense of the first user. *)
Lemma delete_then_gone_witness :
  let req := alice_request "000000000000000000000010" None no_body in
  let d' := db (run (delete_expense req alice) sample_db).2 in
  (exists found w,
     run (get_expenses alice) d' = (Returned (mkReply 200 (Json found)), w)
     /\ forall e', (16%N, e') ∉ found)
  /\ exists w,
       run (delete_expense req alice) d'
       = (Returned {| status := 404; json := Message "Expense not found" |}, w)
       /\ db w = d'.
Proof.
  apply (delete_then_gone
           (alice_request "000000000000000000000010" None no_body)
           alice sample_db 16%N (expense alice 100 (Calendar.utc 2024 1 5)));
    reflexivity.
Defined.

(** ** The days of the daily summary *)

(** [$dayOfMonth] is a day of a month at every instant. *)
Lemma day_of_range t : 1 <= Calendar.day_of t <= 31.
Proof.
  unfold Calendar.day_of, Calendar.civil_from_days. cbn [fst snd].
  set (z := Calendar.day_number t + 719468).
  set (doe := z mod 146097). clearbody doe. clear z.
  set (yoe := (doe - doe / 1460 + doe / 36524 - doe / 146096) / 365).
  set (doy := doe - (365 * yoe + yoe / 4 - yoe / 100)). clearbody doy.
  Z.div_mod_to_equations. lia.
Qed.

#[local] Instance day_le_total : Total Mongo.day_le.
Proof. intros a b. unfold Mongo.day_le. lia. Qed.

#[local] Instance day_le_trans : Transitive Mongo.day_le.
Proof. intros a b c. unfold Mongo.day_le. lia. Qed.

Lemma StronglySorted_strict_days (l : list (Mongo.Group Z)) :
  NoDup (Mongo._id <$> l) -> StronglySorted Mongo.day_le l -> StronglySorted day_lt l.
Proof.
  induction 2 as [|a l Hs IH Hall]; [constructor |].
  rewrite fmap_cons in H. apply NoDup_cons in H as [Hnin Hnd].
  constructor; [by apply IH |].
  rewrite Forall_forall in Hall |- *. intros b Hb.
  pose proof (Hall b Hb) as Hle.
  assert (Mongo._id a <> Mongo._id b) as Hne.
  { intros Heq. apply Hnin. rewrite Heq. by apply list_elem_of_fmap_2. }
  unfold Mongo.day_le in Hle. unfold day_lt. lia.
Qed.

(** X9. For every month string of the form the handler asks for, the
    daily summary answers 200 with the month echoed; its days are strictly
    ascending, each within 1..31, and they are exactly the days of the
    month on which the caller has an expense dated, in UTC, in the year
    and month the string names. *)
Theorem daily_summary_days req uid d month :
  Req.query_month req = Some month ->
  JS.month_pattern_test month = true ->
  exists days w,
    run (get_summary_daily req uid) d
    = (Returned {| status := 200; json := DailyData month days |}, w)
    /\ StronglySorted bucket_day_lt days
    /\ Forall (fun b => 1 <= DailyBucket.day b <= 31) days
    /\ forall day,
         day ∈ DailyBucket.day <$> days
         <-> exists e, e ∈ documents d /\ user e = uid
                       /\ Some (Calendar.year_of (date e))
                          = JS.parseInt (JS.split "-" month !! 0%nat)
                       /\ Some (Calendar.month_of (date e)) = month_number month
                       /\ Calendar.day_of (date e) = day.
Proof.
  intros Hq Ht. unfold run.
  rewrite (get_summary_daily_valid _ _ _ month Hq Ht). cbn [db log].
  eexists _, _. split; [reflexivity |].
  unfold month_number.
  set (yr := JS.parseInt _). set (mn := JS.parseInt _).
  assert (NoDup (Mongo._id <$> Mongo.daily_pipeline uid yr mn (documents d))) as Hnd.
  { unfold Mongo.daily_pipeline. rewrite merge_sort_Permutation.
    apply group_stage_NoDup. }
  split_and!.
  - apply StronglySorted_fmap with (R1 := day_lt); [by intros a b |].
    apply StronglySorted_strict_days; [done |].
    apply StronglySorted_merge_sort; apply _.
  - apply Forall_fmap, Forall_forall. intros g Hg. cbn.
    unfold Mongo.daily_pipeline in Hg. rewrite merge_sort_Permutation in Hg.
    apply (list_elem_of_fmap_2 Mongo._id) in Hg.
    apply group_stage_key in Hg as (e & _ & <-). apply day_of_range.
  - intros day. rewrite <- list_fmap_compose.
    change (DailyBucket.day ∘ format_day) with (@Mongo._id Z).
    apply daily_pipeline_days.
Qed.

(** X9, at the January of the sample data. *)
Lemma daily_summary_days_witness :
  let req := alice_request "" (Some "2024-01"%string) no_body in
  exists days w,
    run (get_summary_daily req alice) sample_db
    = (Returned {| status := 200; json := DailyData "2024-01" days |}, w)
    /\ StronglySorted bucket_day_lt days
    /\ Forall (fun b => 1 <= DailyBucket.day b <= 31) days
    /\ forall day,
         day ∈ DailyBucket.day <$> days
         <-> exists e, e ∈ documents sample_db /\ user e = alice
                       /\ Some (Calendar.year_of (date e))
                          = JS.parseInt (JS.split "-" "2024-01" !! 0%nat)
                       /\ Some (Calendar.month_of (date e)) = month_number "2024-01"
                       /\ Calendar.day_of (date e) = day.
Proof.
  apply (daily_summary_days (alice_request "" (Some "2024-01"%string) no_body)
           alice sample_db "2024-01"); reflexivity.
Defined.

(** ** What a request leaves alone *)

(** X11. Whatever the request, the create, delete and income handlers run
    for a user leave every expense owned by another user in the collection
    and every other user's record as it was. *)
Theorem handlers_leave_others_untouched env req uid d :
  others_untouched uid d (db (run (post_expenses env req uid) d).2)
  /\ others_untouched uid d (db (run (delete_expense req uid) d).2)
  /\ others_untouched uid d (db (run (post_user_income req uid) d).2).
Proof.
  split_and!.
  - destruct (post_expenses_cases env req uid d)
      as (res & w & -> & [(e & _ & _ & Hfree & He & Hus) | [_ Hd]]); cbn [snd].
    + split.
      * intros id e' Hid _. rewrite He.
        rewrite lookup_insert_ne; [done |].
        intros Heq. subst id. discriminate (eq_trans (eq_sym Hid) Hfree).
      * intros other _. by rewrite Hus.
    + rewrite Hd. by split.
  - unfold delete_expense, Expense_findById, Expense_findByIdAndDelete.
    destruct (Mongo.castObjectId (Req.params_id req)) as [id0|]; [| by split].
    unfold_monad. cbn.
    destruct (expenses d !! id0) as [e0|] eqn:He0; cbn; [| by split].
    destruct (decide (user e0 = uid)) as [Hu | Hu].
    + rewrite bool_decide_eq_false_2 by (intros Hne; by apply Hne). cbn.
      split; [| done]. intros id e Hid Hne.
      cbn [expenses]. rewrite lookup_delete_ne; [done |].
      intros Heq. subst id.
      pose proof (eq_trans (eq_sym Hid) He0) as [= ->]. done.
    + rewrite bool_decide_eq_true_2 by done. by split.
  - unfold post_user_income.
    destruct (income_invalid _); [by split |].
    unfold User_findById, User_save. unfold_monad. cbn.
    destruct (users d !! uid) as [u|] eqn:Hu; cbn; [| by split].
    rewrite Hu. cbn. split; [done |].
    intros other Hne. cbn [users]. by rewrite lookup_insert_ne.
Qed.

(** ** The text of an [ObjectId] *)

Lemma hex_value_hex_char v : (v < 16)%N -> Mongo.hex_value (hex_char v) = Some v.
Proof.
  intros Hv.
  assert (N.to_nat v ∈ seq 0 16) as Hin by (apply elem_of_seq; lia).
  rewrite <- (N2Nat.id v).
  revert Hin. generalize (N.to_nat v). intros n Hn.
  repeat (apply elem_of_cons in Hn as [-> | Hn]; [reflexivity |]).
  by apply elem_of_nil in Hn.
Qed.

Lemma hex_digits_app acc s1 s2 :
  Mongo.hex_digits acc (s1 +:+ s2)
  = Mongo.hex_digits acc s1 ≫= fun a => Mongo.hex_digits a s2.
Proof.
  revert acc. induction s1 as [|c s1 IH]; intros acc; [done |].
  change (String c s1 +:+ s2) with (String c (s1 +:+ s2)). cbn.
  destruct (Mongo.hex_value c); [apply IH | done].
Qed.

Lemma length_app_string s1 s2 :
  String.length (s1 +:+ s2) = (String.length s1 + String.length s2)%nat.
Proof.
  induction s1 as [|c s1 IH]; [done |].
  change (String c s1 +:+ s2) with (String c (s1 +:+ s2)). cbn. by rewrite IH.
Qed.

Lemma length_hex_string k v : String.length (hex_string k v) = k.
Proof.
  revert v. induction k as [|k IH]; intros v; cbn; [done |].
  rewrite length_app_string, IH. cbn. lia.
Qed.

Lemma hex_digits_hex_string k v acc :
  Mongo.hex_digits acc (hex_string k v)
  = Some (acc * 16 ^ N.of_nat k + v mod 16 ^ N.of_nat k)%N.
Proof.
  revert v acc. induction k as [|k IH]; intros v acc.
  - cbn. f_equal. rewrite N.mod_1_r. lia.
  - cbn [hex_string]. rewrite hex_digits_app, IH. cbn.
    rewrite hex_value_hex_char by (apply N.mod_upper_bound; lia). f_equal.
    rewrite Nat2N.inj_succ, N.pow_succ_r', N.Div0.mod_mul_r.
    set (P := (16 ^ N.of_nat k)%N). set (X := ((v / 16) mod P)%N).
    set (Y := (v mod 16)%N). ring.
Qed.

Lemma ObjectId_text_round_trip_aux id :
  (id < 2 ^ 96)%N -> Mongo.castObjectId (ObjectId_toString id) = Some id.
Proof.
  intros Hid. unfold ObjectId_toString, Mongo.castObjectId.
  rewrite length_hex_string. cbn [Nat.eqb].
  rewrite hex_digits_hex_string. f_equal.
  change (16 ^ N.of_nat 24)%N with (2 ^ 96)%N.
  rewrite N.mod_small by done. lia.
Qed.

(** X12. The text of an [ObjectId] is 24 characters and casts back to the
    [ObjectId] it is the text of. *)
Theorem ObjectId_text_round_trip id :
  (id < 2 ^ 96)%N ->
  String.length (ObjectId_toString id) = 24%nat
  /\ Mongo.castObjectId (ObjectId_toString id) = Some id.
Proof.
  intros Hid. split; [apply length_hex_string | by apply ObjectId_text_round_trip_aux].
Qed.

(** X12, at the [ObjectId] of the first expense of the sample data. *)
Lemma ObjectId_text_round_trip_witness :
  String.length (ObjectId_toString 16%N) = 24%nat
  /\ Mongo.castObjectId (ObjectId_toString 16%N) = Some 16%N.
Proof. apply (ObjectId_text_round_trip 16%N). reflexivity. Defined.

(** ** Registration and login *)

Lemma findOne_elem d mail id u :
  user_with_email mail d = Some (id, u) ->
  users d !! id = Some u /\ email u = mail.
Proof.
  intros Hh%head_Some_elem_of. apply list_elem_of_filter in Hh as [Hm Hin].
  by apply elem_of_map_to_list in Hin.
Qed.

Lemma findOne_is_Some d mail id u :
  users d !! id = Some u -> email u = mail -> is_Some (user_with_email mail d).
Proof.
  intros Hu Hm. unfold user_with_email.
  assert ((id, u) ∈ filter (fun p : ObjectId * User => email p.2 = mail)
                      (map_to_list (users d))) as Hin.
  { apply list_elem_of_filter. split; [done | by apply elem_of_map_to_list]. }
  destruct (filter _ _) as [|x l]; [by apply elem_of_nil in Hin | by eexists].
Qed.

Lemma findOne_None d mail :
  (forall id u, users d !! id = Some u -> email u <> mail) ->
  user_with_email mail d = None.
Proof.
  intros Hno. destruct (user_with_email mail d) as [[id u]|] eqn:Hh; [| done].
  apply findOne_elem in Hh as [Hu Hm]. by destruct (Hno id u Hu).
Qed.

(** X13. Registering with an email that a user of the collection already
    has is answered 400 and changes nothing. *)
Theorem register_taken_email aenv b d id u :
  users d !! id = Some u ->
  email u = Auth.email b ->
  exists w,
    run (post_auth_register aenv b) d
    = (Returned (mkReply 400 (Failure "User with this email already exists")), w)
    /\ db w = d.
Proof.
  intros Hu Hm.
  destruct (findOne_is_Some d _ id u Hu Hm) as [x Hx].
  unfold post_auth_register, User_findOne. unfold_monad. cbn [db log].
  rewrite Hx. cbn. eexists. split; reflexivity.
Qed.

(** X13, at a second registration of the first user's email. *)
Lemma register_taken_email_witness :
  exists w,
    run (post_auth_register sample_auth
           (Auth.mkBody "Alice again" "alice@example.org" "secret")) sample_db
    = (Returned (mkReply 400 (Failure "User with this email already exists")), w)
    /\ db w = sample_db.
Proof.
  apply (register_taken_email sample_auth
           (Auth.mkBody "Alice again" "alice@example.org" "secret") sample_db alice
           {| name := "Alice"; email := "alice@example.org";
              password := "$2a$10$hash"; monthlyIncome := 0 |}); reflexivity.
Defined.

Lemma register_new_run aenv b d :
  Auth.name b <> EmptyString ->
  Auth.email b <> EmptyString ->
  Auth.password b <> EmptyString ->
  (forall id u, users d !! id = Some u -> email u <> Auth.email b) ->
  users d !! Auth.new_ObjectId aenv = None ->
  run (post_auth_register aenv b) d
  = (Returned (mkReply 201
                 (Json (Auth.mkInfo (Auth.new_ObjectId aenv) (Auth.name b)
                          (Auth.email b)
                          (generateToken aenv (Auth.new_ObjectId aenv))))),
     {| db := {| users := <[Auth.new_ObjectId aenv := registered aenv b]> (users d);
                 expenses := expenses d |};
        log := [] |}).
Proof.
  intros Hn Hm Hp Hno Hfree.
  unfold post_auth_register, User_findOne, User_create. unfold_monad. cbn [db log].
  rewrite (findOne_None d _ Hno).
  rewrite !bool_decide_eq_false_2 by done. cbn [orb db log].
  rewrite Hfree, (findOne_None d _ Hno). reflexivity.
Qed.

(** X14. Registering a new email with three non-empty fields is answered
    201; the user is stored under the new [_id] with the hash of the
    password and an income of 0, nothing else changes; and, where [bcrypt]
    accepts the password against the hash stored, a later login with the
    same email and password is answered 200 with the same [_id], name and
    email and a token issued for that [_id] at the time of the login. *)
Theorem register_then_login aenv aenv' b d :
  Auth.name b <> EmptyString ->
  Auth.email b <> EmptyString ->
  Auth.password b <> EmptyString ->
  (forall id u, users d !! id = Some u -> email u <> Auth.email b) ->
  users d !! Auth.new_ObjectId aenv = None ->
  Auth.bcrypt_compare aenv' (Auth.password b)
    (Auth.bcrypt_hash aenv (Auth.password b)) = true ->
  let id := Auth.new_ObjectId aenv in
  let answer token := Json (Auth.mkInfo id (Auth.name b) (Auth.email b) token) in
  exists w,
    run (post_auth_register aenv b) d
    = (Returned (mkReply 201 (answer (generateToken aenv id))), w)
    /\ users (db w) = <[id := registered aenv b]> (users d)
    /\ expenses (db w) = expenses d
    /\ exists w',
         run (post_auth_login aenv'
                (Auth.mkCredentials (Auth.email b) (JString (Auth.password b)))) (db w)
         = (Returned (mkReply 200 (answer (generateToken aenv' id))), w')
         /\ db w' = db w.
Proof.
  intros Hn Hm Hp Hno Hfree Hcmp id answer.
  rewrite (register_new_run aenv b d Hn Hm Hp Hno Hfree).
  eexists. split_and!; [reflexivity | reflexivity | reflexivity |]. cbn [db].
  unfold post_auth_login, User_findOne, bcrypt_compare_value. unfold_monad.
  cbn [db log Auth.login_email Auth.login_password].
  set (d' := {| users := _; expenses := _ |}).
  assert (user_with_email (Auth.email b) d' = Some (id, registered aenv b)) as ->.
  { destruct (findOne_is_Some d' (Auth.email b) id (registered aenv b))
      as [[id' u'] Hh]; [apply lookup_insert_eq | done |].
    rewrite Hh. f_equal.
    apply findOne_elem in Hh as [Hu' Hm']. cbn in Hu'.
    destruct (decide (id' = id)) as [-> | Hne].
    - rewrite lookup_insert_eq in Hu'. congruence.
    - rewrite lookup_insert_ne in Hu' by done. by destruct (Hno id' u' Hu'). }
  cbn. rewrite Hcmp. eexists. split; reflexivity.
Qed.

(** X14, at a third user who registers with the sample data on 1 March
    2024 and logs in a day later: the two tokens differ. *)
Lemma register_then_login_witness :
  let aenv := sample_auth_at (Calendar.utc 2024 3 1) in
  let aenv' := sample_auth_at (Calendar.utc 2024 3 2) in
  let answer token := Json (Auth.mkInfo 3%N "Carol" "carol@example.org" token) in
  exists w,
    run (post_auth_register aenv carol) sample_db
    = (Returned (mkReply 201 (answer "1709251200.000000000000000000000003")), w)
    /\ users (db w) = <[3%N := registered aenv carol]> (users sample_db)
    /\ expenses (db w) = expenses sample_db
    /\ exists w',
         run (post_auth_login aenv'
                (Auth.mkCredentials "carol@example.org" (JString "correct horse"))) (db w)
         = (Returned (mkReply 200 (answer "1709337600.000000000000000000000003")), w')
         /\ db w' = db w.
Proof.
  apply (register_then_login (sample_auth_at (Calendar.utc 2024 3 1))
           (sample_auth_at (Calendar.utc 2024 3 2)) carol sample_db); try done.
  intros id u Hu.
  assert (id = alice \/ id = bob) as [-> | ->].
  { destruct (decide (id = alice)) as [| Ha]; [by left |].
    destruct (decide (id = bob)) as [| Hb]; [by right |].
    unfold sample_db, sample_users in Hu. cbn in Hu.
    rewrite lookup_insert_ne, lookup_insert_ne in Hu by done. done. }
  - vm_compute in Hu. injection Hu as <-. discriminate.
  - vm_compute in Hu. injection Hu as <-. discriminate.
Defined.

(** X15. A login changes nothing in the collections.  It is answered 200
    only for a user of the collection who has the email of the body and
    whose stored hash [bcrypt] accepts for the password of the body, a
    string, with that user's [_id] and a token for it.  A body whose
    password is not a string, sent with the email of a user of the
    collection, is answered 500.  Every other login is answered 401. *)
Theorem login_only_with_matching_hash aenv b d :
  exists r w,
    run (post_auth_login aenv b) d = (Returned r, w)
    /\ db w = d
    /\ ((exists id u pw,
           users d !! id = Some u
           /\ email u = Auth.login_email b
           /\ Auth.login_password b = JString pw
           /\ Auth.bcrypt_compare aenv pw (password u) = true
           /\ r = mkReply 200
                    (Json (Auth.mkInfo id (name u) (email u) (generateToken aenv id))))
        \/ (r = mkReply 500 (Failure "Server error during login")
            /\ (exists id u, users d !! id = Some u /\ email u = Auth.login_email b)
            /\ forall pw, Auth.login_password b <> JString pw)
        \/ (r = mkReply 401 (Failure "Invalid email or password")
            /\ ((forall id u, users d !! id = Some u -> email u <> Auth.login_email b)
                \/ exists id u pw,
                     users d !! id = Some u
                     /\ email u = Auth.login_email b
                     /\ Auth.login_password b = JString pw
                     /\ Auth.bcrypt_compare aenv pw (password u) = false))).
Proof.
  unfold post_auth_login, User_findOne, bcrypt_compare_value. unfold_monad.
  cbn [db log].
  destruct (user_with_email (Auth.login_email b) d) as [[id u]|] eqn:Hf; cbn.
  - apply findOne_elem in Hf as [Hu Hm].
    destruct (Auth.login_password b) as [| | | |pw|] eqn:Hp; cbn;
      try (eexists _, _; split_and!; [reflexivity | done |];
           right; left; split_and!; [done | by exists id, u | done]).
    destruct (Auth.bcrypt_compare aenv pw (password u)) eqn:Hcmp; cbn.
    + eexists _, _. split_and!; [reflexivity | done |].
      left. by exists id, u, pw.
    + eexists _, _. split_and!; [reflexivity | done |].
      right. right. split; [done |]. right. by exists id, u, pw.
  - eexists _, _. split_and!; [reflexivity | done |].
    right. right. split; [done |]. left. intros id u Hu Hm.
    destruct (findOne_is_Some d _ id u Hu Hm) as [x Hx]. congruence.
Qed.

(** ** From the token of a login to [protect] *)

Lemma split_from_free sep cur s :
  free_of sep s = true -> JS.split_from sep cur s = [String.rev_app cur s].
Proof.
  revert cur. induction s as [|c s IH]; intros cur Hf; [done |].
  cbn in Hf. apply andb_prop in Hf as [Hc Hs]. cbn.
  destruct (bool_decide (c = sep)); [done |]. by rewrite IH.
Qed.

Lemma bearer_token tok :
  free_of " " tok = true ->
  JS.startsWith "Bearer" ("Bearer " +:+ tok) = true
  /\ JS.split " " ("Bearer " +:+ tok) !! 1%nat = Some tok.
Proof.
  intros Hf. split; [destruct tok; reflexivity |].
  unfold JS.split.
  change ("Bearer " +:+ tok)
    with (String "B" (String "e" (String "a" (String "r" (String "e" (String "r"
            (String " " tok))))))).
  cbn [JS.split_from].
  repeat (rewrite bool_decide_eq_false_2 by discriminate).
  rewrite bool_decide_eq_true_2 by reflexivity.
  rewrite (split_from_free _ _ _ Hf). reflexivity.
Qed.

(** X16. The token of a login opens the protected routes for the user it
    was issued to: where the verifier returns the payload of what the
    signer signed, and the token holds no space, [protect] passes a
    request with the header [Bearer <token>] on to its handler as that
    user, after one read of the user collection, as long as the user is
    in the collection. *)
Theorem login_token_authenticates env aenv d id u pid month rb
    (next : ObjectId -> M Response) :
  users d !! id = Some u ->
  (id < 2 ^ 96)%N ->
  free_of " " (generateToken aenv id) = true ->
  jwt_verify env (Some (generateToken aenv id)) = Some (ObjectId_toString id) ->
  run (protect env
         (Req.mk (Some ("Bearer " +:+ generateToken aenv id)) pid month rb) next) d
  = next id {| db := d; log := [UserFindById id] |}.
Proof.
  intros Hu Hid Hfree Hver. apply protect_caller.
  unfold caller. cbn [Req.authorization mbind option_bind].
  destruct (bearer_token _ Hfree) as [-> ->].
  rewrite Hver. cbn [mbind option_bind].
  rewrite (ObjectId_text_round_trip_aux id Hid). cbn [mbind option_bind].
  unfold ObjectId in *. rewrite Hu. reflexivity.
Qed.

(** X16, at the first user of the sample data and the monthly summary. *)
Lemma login_token_authenticates_witness :
  run (protect session_env
         (Req.mk (Some ("Bearer " +:+ generateToken sample_auth alice)) "" None no_body)
         get_summary_monthly) sample_db
  = get_summary_monthly alice {| db := sample_db; log := [UserFindById alice] |}.
Proof.
  apply (login_token_authenticates session_env sample_auth sample_db alice
           {| name := "Alice"; email := "alice@example.org";
              password := "$2a$10$hash"; monthlyIncome := 0 |} "" None no_body
           get_summary_monthly);
    reflexivity.
Defined.

(** ** The theme toggle *)

(** X17. One click turns ['light'] into ['dark'] and every other theme
    into ['light']; two clicks give the theme back exactly when it is one
    of the two; and the switch is checked after a click exactly when the
    theme before it was ['light'], so from a stored theme that is neither,
    the first click leaves the switch unchecked. *)
Theorem toggle_two_themes t :
  (ThemeToggle.handleToggle t = "dark"%string \/ ThemeToggle.handleToggle t = "light"%string)
  /\ (ThemeToggle.handleToggle (ThemeToggle.handleToggle t) = t
      <-> t = "light"%string \/ t = "dark"%string)
  /\ ThemeToggle.checked (ThemeToggle.handleToggle t) = bool_decide (t = "light"%string).
Proof.
  unfold ThemeToggle.handleToggle, ThemeToggle.checked.
  destruct (decide (t = "light"%string)) as [-> | Hl].
  - cbn. split_and!; [by left | | done]. split; [by left | done].
  - rewrite (bool_decide_eq_false_2 _ Hl). cbn.
    split_and!; [by right | | done].
    split; [intros <-; by right | intros [-> | ->]; done].
Qed.

Lemma initial_theme_nonempty ls : ThemeToggle.initial_theme ls <> EmptyString.
Proof.
  unfold ThemeToggle.initial_theme.
  destruct (ls !! "theme"%string) as [t|]; [| done].
  case_bool_decide; done.
Qed.

Lemma handleToggle_nonempty t : ThemeToggle.handleToggle t <> EmptyString.
Proof. unfold ThemeToggle.handleToggle. case_bool_decide; done. Qed.

Lemma apply_theme_read t p :
  t <> EmptyString ->
  ThemeToggle.initial_theme (ThemeToggle.localStorage (ThemeToggle.apply_theme t p)) = t.
Proof.
  intros Ht. unfold ThemeToggle.initial_theme, ThemeToggle.apply_theme. cbn.
  rewrite lookup_insert_eq. by rewrite bool_decide_eq_false_2.
Qed.

(** X18. After a mount and any number of clicks, the storage holds the
    theme in state and the document element carries it: a later mount on
    the page starts with that theme. *)
Theorem theme_persists p n :
  let st := Nat.iter n ThemeToggle.click (ThemeToggle.mount p) in
  ThemeToggle.data_theme st.2 = Some st.1
  /\ (ThemeToggle.mount st.2).1 = st.1.
Proof.
  cbn zeta. unfold ThemeToggle.mount at 2. cbn [fst].
  destruct n as [|n]; cbn [Nat.iter].
  - unfold ThemeToggle.mount. cbn [fst snd]. split; [done |].
    apply apply_theme_read, initial_theme_nonempty.
  - unfold ThemeToggle.click at 1 2 3. cbn [fst snd]. split; [done |].
    apply apply_theme_read, handleToggle_nonempty.
Qed.

(** The sessions of the scenario: a first visit, one click, a second
    visit. *)
Example theme_dark_on_return :
  let page := {| ThemeToggle.localStorage := ∅; ThemeToggle.data_theme := None |} in
  let first := ThemeToggle.mount page in
  let clicked := ThemeToggle.click first in
  first.1 = "light"%string
  /\ clicked.1 = "dark"%string
  /\ (ThemeToggle.mount clicked.2).1 = "dark"%string.
Proof. vm_compute. split_and!; reflexivity. Qed.

(** ** The total on the balance card over time *)

(** What the states the component reaches keep: the memo cell, when there
    is one, was filled for the array in state or for an earlier one, and
    in the first case holds what the callback gives for that array at the
    instant of one of the renders so far. *)
Lemma reached_memo tz times st :
  Card.reached tz times st ->
  match Card.memo st with
  | Some c =>
      (Card.deps c <= Card.ref (Card.expenses st))%nat
      /\ (Card.deps c = Card.ref (Card.expenses st) ->
          exists t, t ∈ times
                    /\ Card.value c
                       = Double.sum (Doc.amount <$>
                                     of_month tz t (Card.elems (Card.expenses st))))
  | None => True
  end.
Proof.
  induction 1 as [| now times st Hr IH | arr times st Hr IH | n times st Hr IH]; cbn.
  - done.
  - unfold Card.useMemo.
    destruct (Card.memo st) as [c|]; cbn.
    + destruct IH as [Hle Hval]. case_bool_decide as Hd; cbn.
      * split; [lia |]. intros _. destruct (Hval Hd) as (t & Ht & Hv).
        exists t. split; [by apply list_elem_of_further | done].
      * split; [done |]. intros _. exists now.
        split; [apply list_elem_of_here | apply currentMonthTotal_sum].
    + split; [done |]. intros _. exists now.
      split; [apply list_elem_of_here | apply currentMonthTotal_sum].
  - destruct (Card.memo st) as [c|]; [| done].
    destruct IH as [Hle _]. split; lia.
  - done.
Qed.

(** X19. In every state the component reaches, a render shows the sum,
    added up in doubles in the order of the list, of the amounts of the
    expenses of the list now in state that are dated in one month: the
    month of the instant of this render or of an earlier render, never a
    sum over another list nor for an instant at which nothing was
    rendered. *)
Theorem shown_total_is_of_the_current_list tz times st now :
  Card.reached tz times st ->
  exists t,
    t ∈ now :: times
    /\ Card.shown_total (Card.render tz now st).1
       = Double.sum (Doc.amount <$> of_month tz t (Card.elems (Card.expenses st))).
Proof.
  intros Hr. pose proof (reached_memo tz times st Hr) as Hinv.
  unfold Card.render, Card.useMemo. cbn [fst Card.shown_total].
  destruct (Card.memo st) as [c|].
  - destruct Hinv as [_ Hval]. case_bool_decide as Hd.
    + destruct (Hval Hd) as (t & Ht & Hv).
      exists t. split; [by apply list_elem_of_further | done].
    + exists now. split; [apply list_elem_of_here | apply currentMonthTotal_sum].
  - exists now. split; [apply list_elem_of_here | apply currentMonthTotal_sum].
Qed.

(** X19, at a list of one expense rendered twice, a month apart. *)
Lemma shown_total_is_of_the_current_list_witness :
  let utc0 := fun _ : Z => 0 in
  let st0 := Card.setExpenses
               [double_expense alice 100 (Calendar.utc 2024 1 15)] Card.initial in
  let st1 := (Card.render utc0 (Calendar.utc 2024 1 31) st0).2 in
  exists t,
    t ∈ [Calendar.utc 2024 2 1; Calendar.utc 2024 1 31]
    /\ Card.shown_total (Card.render utc0 (Calendar.utc 2024 2 1) st1).1
       = Double.sum (Doc.amount <$> of_month utc0 t (Card.elems (Card.expenses st1))).
Proof.
  apply (shown_total_is_of_the_current_list (fun _ : Z => 0)
           [Calendar.utc 2024 1 31]
           (Card.render (fun _ : Z => 0) (Calendar.utc 2024 1 31)
              (Card.setExpenses
                 [double_expense alice 100 (Calendar.utc 2024 1 15)] Card.initial)).2
           (Calendar.utc 2024 2 1)).
  apply Card.reached_render, Card.reached_setExpenses, Card.reached_initial.
Defined.



(** ** Edges of the create, delete and register handlers *)

(** X21. A create whose title is no array or object and whose [date]
    field is missing or falsy, the number 0 and the empty string included,
    stores the instant of the server's clock; the title, the amount and
    the category are stored as cast. *)
Theorem create_without_date_stores_now env req uid d t a c :
  is_object (Req.title (Req.req_body req)) = false ->
  cast_title env (Req.title (Req.req_body req)) = Some t ->
  cast_amount env (Req.amount (Req.req_body req)) = Some a ->
  cast_category (Req.category (Req.req_body req)) = Some c ->
  truthy (Req.date (Req.req_body req)) = false ->
  expenses d !! new_ObjectId env = None ->
  let e := {| user := uid; title := t; amount := a; category := c;
              date := Date_now env |} in
  exists w,
    run (post_expenses env req uid) d
    = (Returned {| status := 201; json := ExpenseDoc (new_ObjectId env) e |}, w)
    /\ expenses (db w) = <[new_ObjectId env := e]> (expenses d).
Proof.
  intros _ Ht Ha Hc Hd Hfree e.
  unfold post_expenses, new_Expense, Expense_insert. unfold_monad.
  rewrite Ht, Ha, Hc, Hd. cbn. rewrite Hfree. cbn.
  eexists. split; reflexivity.
Qed.

(** X21, at a body whose [date] is the number 0. *)
Lemma create_without_date_stores_now_witness :
  let req := alice_request "" None
               (Req.mkBody (JString "coffee") (JNumber 3) (JString "Food")
                  (JNumber 0) JUndefined) in
  let e := {| user := alice; title := "coffee"; amount := 3; category := Food;
              date := Date_now sample_env |} in
  exists w,
    run (post_expenses sample_env req alice) sample_db
    = (Returned {| status := 201; json := ExpenseDoc (new_ObjectId sample_env) e |}, w)
    /\ expenses (db w) = <[new_ObjectId sample_env := e]> (expenses sample_db).
Proof.
  apply (create_without_date_stores_now sample_env
           (alice_request "" None
              (Req.mkBody (JString "coffee") (JNumber 3) (JString "Food")
                 (JNumber 0) JUndefined))
           alice sample_db "coffee" 3 Food); reflexivity.
Defined.

(** X22. A create that fails the validation of the schema (a title, an
    amount or a category that is no array or object and does not pass its
    path: none, an empty title, a text that is no number, a category
    outside the four; or a date that is truthy and invalid) is answered
    500, not 400, before any access to the collections. *)
Theorem create_invalid_is_500 env req uid d :
  (is_object (Req.title (Req.req_body req)) = false
   /\ cast_title env (Req.title (Req.req_body req)) = None)
  \/ (is_object (Req.amount (Req.req_body req)) = false
      /\ cast_amount env (Req.amount (Req.req_body req)) = None)
  \/ (is_object (Req.category (Req.req_body req)) = false
      /\ cast_category (Req.category (Req.req_body req)) = None)
  \/ (truthy (Req.date (Req.req_body req)) = true
      /\ new_Date env (Req.date (Req.req_body req)) = None) ->
  run (post_expenses env req uid) d
  = (Returned {| status := 500; json := Message "Server Error creating expense" |},
     {| db := d; log := [] |}).
Proof.
  intros Hbad. unfold post_expenses, new_Expense. unfold_monad.
  destruct Hbad as [[_ ->] | [[_ Ha] | [[_ Hc] | [Hd Hn]]]]; [reflexivity | | |].
  - destruct (cast_title _); [| reflexivity]. cbn. by rewrite Ha.
  - destruct (cast_title _); [| reflexivity]. cbn.
    destruct (cast_amount env _); [| reflexivity]. cbn. by rewrite Hc.
  - rewrite Hd, Hn.
    destruct (cast_title _); [| reflexivity]. cbn.
    destruct (cast_amount env _); [| reflexivity]. cbn.
    destruct (cast_category _); reflexivity.
Qed.

(** X22, at a body with the category ["Rent"]. *)
Lemma create_invalid_is_500_witness :
  run (post_expenses sample_env
         (alice_request "" None
            (Req.mkBody (JString "flat") (JNumber 900) (JString "Rent")
               JUndefined JUndefined)) alice) sample_db
  = (Returned {| status := 500; json := Message "Server Error creating expense" |},
     {| db := sample_db; log := [] |}).
Proof.
  apply (create_invalid_is_500 sample_env
           (alice_request "" None
              (Req.mkBody (JString "flat") (JNumber 900) (JString "Rent")
                 JUndefined JUndefined)) alice sample_db).
  right. right. left. split; reflexivity.
Defined.

(** X23. A delete whose id is not the text of an [ObjectId] is answered
    500 before any access to the collections. *)
Theorem delete_uncastable_id_is_500 req uid d :
  Mongo.castObjectId (Req.params_id req) = None ->
  run (delete_expense req uid) d
  = (Returned {| status := 500; json := Message "Server Error deleting expense" |},
     {| db := d; log := [] |}).
Proof.
  intros Hid. unfold delete_expense, Expense_findById. rewrite Hid. reflexivity.
Qed.

(** X23, at an id one digit short. *)
Lemma delete_uncastable_id_is_500_witness :
  run (delete_expense (alice_request "00000000000000000000010" None no_body) alice)
    sample_db
  = (Returned {| status := 500; json := Message "Server Error deleting expense" |},
     {| db := sample_db; log := [] |}).
Proof.
  apply (delete_uncastable_id_is_500
           (alice_request "00000000000000000000010" None no_body) alice sample_db).
  reflexivity.
Defined.

(** X24. A registration with a new email and an empty name, email or
    password is answered 500, not 400, and stores nothing. *)
Theorem register_empty_field_is_500 aenv b d :
  (forall id u, users d !! id = Some u -> email u <> Auth.email b) ->
  Auth.name b = EmptyString \/ Auth.email b = EmptyString
  \/ Auth.password b = EmptyString ->
  run (post_auth_register aenv b) d
  = (Returned (mkReply 500 (Failure "Server error during registration")),
     {| db := d; log := [] |}).
Proof.
  intros Hno Hempty.
  unfold post_auth_register, User_findOne, User_create. unfold_monad. cbn [db log].
  rewrite (findOne_None d _ Hno).
  assert (bool_decide (Auth.name b = EmptyString)
          || bool_decide (Auth.email b = EmptyString)
          || bool_decide (Auth.password b = EmptyString) = true) as ->;
    [| reflexivity].
  rewrite !orb_true_iff, !bool_decide_eq_true. tauto.
Qed.

(** X24, at a registration without a password, with no user yet. *)
Lemma register_empty_field_is_500_witness :
  run (post_auth_register sample_auth (Auth.mkBody "Dan" "dan@example.org" ""))
    {| users := ∅; expenses := ∅ |}
  = (Returned (mkReply 500 (Failure "Server error during registration")),
     {| db := {| users := ∅; expenses := ∅ |}; log := [] |}).
Proof.
  apply (register_empty_field_is_500 sample_auth
           (Auth.mkBody "Dan" "dan@example.org" "") {| users := ∅; expenses := ∅ |}).
  - intros id u Hu. cbn in Hu. by rewrite lookup_empty in Hu.
  - right. right. reflexivity.
Defined.

Lemma filter_none_in {A} (P : A -> Prop) `{!forall x, Decision (P x)} (l : list A) :
  (forall x, x ∈ l -> ~ P x) -> filter P l = [].
Proof.
  induction l as [|x l IH]; intros Hn; [done |].
  rewrite filter_cons, decide_False by (apply Hn, list_elem_of_here).
  apply IH. intros y Hy. by apply Hn, list_elem_of_further.
Qed.

(** X25. For a user who owns no expense the monthly summary is the empty
    list and the daily summary of a well-formed month has no day; both
    are answered 200. *)
Theorem summaries_of_no_expenses req uid d month :
  owned_by uid (documents d) = [] ->
  Req.query_month req = Some month ->
  JS.month_pattern_test month = true ->
  (run (get_summary_monthly uid) d).1
  = Returned {| status := 200; json := MonthlyData [] |}
  /\ (run (get_summary_daily req uid) d).1
     = Returned {| status := 200; json := DailyData month [] |}.
Proof.
  intros Hnone Hq Ht. split.
  - unfold run. rewrite get_summary_monthly_run. cbn [fst db].
    unfold Mongo.monthly_pipeline. unfold owned_by in Hnone. by rewrite Hnone.
  - unfold run. rewrite (get_summary_daily_valid _ _ _ month Hq Ht). cbn [fst db].
    unfold Mongo.daily_pipeline. rewrite filter_none_in; [done |].
    intros e He (Hu & _).
    assert (e ∈ owned_by uid (documents d)) as Hin
      by (apply list_elem_of_filter; by split).
    rewrite Hnone in Hin. by apply elem_of_nil in Hin.
Qed.

(** X25, at the first user and an empty expense collection. *)
Lemma summaries_of_no_expenses_witness :
  let req := alice_request "" (Some "2024-01"%string) no_body in
  (run (get_summary_monthly alice) {| users := sample_users; expenses := ∅ |}).1
  = Returned {| status := 200; json := MonthlyData [] |}
  /\ (run (get_summary_daily req alice) {| users := sample_users; expenses := ∅ |}).1
     = Returned {| status := 200; json := DailyData "2024-01" [] |}.
Proof.
  apply (summaries_of_no_expenses
           (alice_request "" (Some "2024-01"%string) no_body) alice
           {| users := sample_users; expenses := ∅ |} "2024-01"); reflexivity.
Defined.
